(** * Retrieval core of the portfolio assistant (backend/rag.py)

    A shallow embedding of the chunker [chunk_text], of [retrieve] and of
    the session pipeline [RAGPipeline], with the properties of the
    natural-language specification stated over it.

    Conventions.
    - Python [int] is [Z]; Python [str] is [string], one [ascii] per code
      point (code points below 256).
    - A [while] loop is run with fuel; [None] means the fuel ran out.
    - The embedding model and the FAISS index are libraries outside the
      repository: they are Section variables (an encoder that may raise, the
      L2 normalisation, the index search).
    - A method of [RAGPipeline] is a computation [M A]: it takes the object
      state and returns an outcome (a value or a raised exception) with the
      state it leaves behind; a raise keeps the mutations done before it. *)

From Stdlib Require Import ZArith List String Ascii Bool Lia Arith.
Import ListNotations.

Local Open Scope string_scope.
Local Open Scope list_scope.
Local Open Scope Z_scope.

(** ** Python string primitives *)

Module PyStr.

Definition len (s : string) : Z := Z.of_nat (String.length s).

(** [s[n:]] for a natural [n]. *)
Fixpoint drop (n : nat) (s : string) : string :=
  match n, s with
  | O, _ => s
  | S _, EmptyString => EmptyString
  | S n', String _ s' => drop n' s'
  end.

(** [s[:n]] for a natural [n]. *)
Fixpoint take (n : nat) (s : string) : string :=
  match n, s with
  | O, _ => EmptyString
  | S _, EmptyString => EmptyString
  | S n', String c s' => String c (take n' s')
  end.

(** A slice bound as Python normalises it: a negative bound counts from the
    end, then the bound is clamped to [0, len]. *)
Definition clamp (n i : Z) : Z :=
  let i' := if i <? 0 then i + n else i in
  if i' <? 0 then 0 else if n <? i' then n else i'.

(** [s[i:j]]. *)
Definition slice (s : string) (i j : Z) : string :=
  let lo := clamp (len s) i in
  let hi := clamp (len s) j in
  take (Z.to_nat (hi - lo)) (drop (Z.to_nat lo) s).

(** [s.startswith(p)]. *)
Fixpoint startswith (p s : string) : bool :=
  match p, s with
  | EmptyString, _ => true
  | String _ _, EmptyString => false
  | String a p', String b s' => Ascii.eqb a b && startswith p' s'
  end.

(** Scan of [s] from offset [i], [last] being the best match so far. *)
Fixpoint rfind_from (sep s : string) (i last : Z) : Z :=
  let last' := if startswith sep s then i else last in
  match s with
  | EmptyString => last'
  | String _ s' => rfind_from sep s' (i + 1) last'
  end.

(** [s.rfind(sep)]: the highest index where [sep] starts, or [-1]. *)
Definition rfind (s sep : string) : Z := rfind_from sep s 0 (-1).

(** [str.isspace] on one code point below 256. *)
Definition is_space (c : ascii) : bool :=
  let n := nat_of_ascii c in
  ((9 <=? n) && (n <=? 13) || (28 <=? n) && (n <=? 32)
   || (n =? 133) || (n =? 160))%nat.

Fixpoint lstrip (s : string) : string :=
  match s with
  | EmptyString => EmptyString
  | String c s' => if is_space c then lstrip s' else s
  end.

Fixpoint rstrip (s : string) : string :=
  match s with
  | EmptyString => EmptyString
  | String c s' =>
      match rstrip s' with
      | EmptyString => if is_space c then EmptyString else String c EmptyString
      | r => String c r
      end
  end.

(** [s.strip()]. *)
Definition strip (s : string) : string := rstrip (lstrip s).

(** Truth value of a string. *)
Definition truthy (s : string) : bool :=
  match s with EmptyString => false | _ => true end.

(** [sep] starts at index [p] of [s]. *)
Definition occurs_at (s sep : string) (p : Z) : bool :=
  (0 <=? p) && (p <=? len s) && startswith sep (drop (Z.to_nat p) s).

End PyStr.

(** ** The chunker *)

(** The separators of [chunk_text], in the order the loop tries them. *)
Definition LF : string := String (ascii_of_nat 10) EmptyString.

Definition separators : list string :=
  [". "; ("." ++ LF)%string; "! "; "? "; (LF ++ LF)%string].

(** The [for sep in ...] loop with its [break]: the first separator whose
    last occurrence in the window lies past the midpoint decides the end. *)
Fixpoint sentence_end (seps : list string) (window : string)
    (chunk_size start : Z) : option Z :=
  match seps with
  | [] => None
  | sep :: rest =>
      let last_sep := PyStr.rfind window sep in
      if chunk_size / 2 <? last_sep
      then Some (start + last_sep + PyStr.len sep)
      else sentence_end rest window chunk_size start
  end.

(** The value of [end] when the chunk is sliced, for the window that starts
    at [start]. *)
Definition window_end (text : string) (chunk_size start : Z) : Z :=
  let end_ := start + chunk_size in
  if end_ <? PyStr.len text then
    match sentence_end separators (PyStr.slice text start end_)
            chunk_size start with
    | Some e => e
    | None => end_
    end
  else end_.

(** The [while start < len(text)] loop. *)
Fixpoint chunk_loop (fuel : nat) (text : string) (chunk_size overlap : Z)
    (start : Z) (chunks : list string) : option (list string) :=
  match fuel with
  | O => None
  | S fuel' =>
      if start <? PyStr.len text then
        let end_ := window_end text chunk_size start in
        let chunk := PyStr.strip (PyStr.slice text start end_) in
        let chunks' := if PyStr.truthy chunk then chunks ++ [chunk]
                       else chunks in
        chunk_loop fuel' text chunk_size overlap (end_ - overlap) chunks'
      else Some chunks
  end.

(** [chunk_text(text, chunk_size, overlap)]. *)
Definition chunk_text (fuel : nat) (text : string) (chunk_size overlap : Z)
    : option (list string) :=
  if negb (PyStr.truthy text) || (PyStr.len text <=? chunk_size) then
    Some (if PyStr.truthy text then [text] else [])
  else chunk_loop fuel text chunk_size overlap 0 [].

(** The defaults of the signature, the only values the pipeline uses. *)
Definition default_chunk_size : Z := 500.
Definition default_overlap : Z := 50.

(** [chunk_text(text)] as the pipeline calls it; [S (length text)] rounds
    of the loop are enough (lemma [chunk_text_default_eq] below). *)
Definition chunk_text_default (text : string) : list string :=
  match chunk_text (S (String.length text)) text
          default_chunk_size default_overlap with
  | Some chunks => chunks
  | None => []
  end.

(** ** Python lists *)

Module PyList.

Definition len {A} (l : list A) : Z := Z.of_nat (List.length l).

(** [l[i]]: a negative index counts from the end; [None] is IndexError. *)
Definition getitem {A} (l : list A) (i : Z) : option A :=
  if i <? 0 then
    if i + len l <? 0 then None else nth_error l (Z.to_nat (i + len l))
  else nth_error l (Z.to_nat i).

(** [l.index(x)] on a list of strings: the first position holding a string
    equal to [x]; [None] is ValueError. *)
Fixpoint index_of (x : string) (l : list string) : option Z :=
  match l with
  | [] => None
  | y :: l' =>
      if String.eqb y x then Some 0
      else option_map Z.succ (index_of x l')
  end.

(** [enumerate(l)], counting from [i]. *)
Fixpoint enumerate_from {A} (i : Z) (l : list A) : list (Z * A) :=
  match l with
  | [] => []
  | x :: l' => (i, x) :: enumerate_from (i + 1) l'
  end.

Definition enumerate {A} (l : list A) : list (Z * A) := enumerate_from 0 l.

End PyList.

(** ** Outcomes of a call *)

Inductive exn : Type :=
| ProviderError   (* the embedding model raised *)
| SearchError     (* the index search raised *)
| IndexError
| ValueError.

Inductive outcome (A : Type) : Type :=
| Ok (a : A)
| Raise (e : exn).
Arguments Ok {A} a.
Arguments Raise {A} e.

Definition obind {A B} (o : outcome A) (k : A -> outcome B) : outcome B :=
  match o with
  | Ok a => k a
  | Raise e => Raise e
  end.

(** ** Data of the pipeline *)

(** A document dict [{id, filename, type, text}]. *)
Record document : Type := Document {
  doc_id : string;
  doc_filename : string;
  doc_type : string;
  doc_text : string
}.

(** A result dict: [retrieve] sets ["text"] and ["score"], [query] adds
    ["source"] ([None]: the key is absent). *)
Record result (score : Type) : Type := Result {
  res_text : string;
  res_score : score;
  res_source : option string
}.
Arguments Result {score} _ _ _.
Arguments res_text {score} _.
Arguments res_score {score} _.
Arguments res_source {score} _.

(** The attributes of a [RAGPipeline] object; [index] is [None] or the
    vectors held by the FAISS index, in insertion order. *)
Record pipeline (vec : Type) : Type := Pipeline {
  documents : list document;
  chunks : list string;
  chunk_sources : list Z;
  index : option (list vec)
}.
Arguments Pipeline {vec} _ _ _ _.
Arguments documents {vec} _.
Arguments chunks {vec} _.
Arguments chunk_sources {vec} _.
Arguments index {vec} _.

Section Setters.
Context {vec : Type}.

Definition set_documents (v : list document) (st : pipeline vec) :=
  Pipeline v (chunks st) (chunk_sources st) (index st).
Definition set_chunks (v : list string) (st : pipeline vec) :=
  Pipeline (documents st) v (chunk_sources st) (index st).
Definition set_chunk_sources (v : list Z) (st : pipeline vec) :=
  Pipeline (documents st) (chunks st) v (index st).
Definition set_index (v : option (list vec)) (st : pipeline vec) :=
  Pipeline (documents st) (chunks st) (chunk_sources st) v.

End Setters.

(** ** Methods as state-passing computations *)

Module PipelineMonad.
Section Defs.
Context {S : Type}.

Definition M (A : Type) : Type := S -> outcome A * S.

Definition ret {A} (a : A) : M A := fun st => (Ok a, st).

Definition bind {A B} (m : M A) (k : A -> M B) : M B :=
  fun st =>
    match m st with
    | (Ok a, st') => k a st'
    | (Raise e, st') => (Raise e, st')
    end.

(** Read an attribute. *)
Definition gets {A} (f : S -> A) : M A := fun st => (Ok (f st), st).

(** Assign an attribute. *)
Definition modify (f : S -> S) : M unit := fun st => (Ok tt, f st).

(** A call that does not touch the object. *)
Definition lift {A} (o : outcome A) : M A := fun st => (o, st).

(** A [for] loop over a list. *)
Fixpoint for_each {A} (l : list A) (body : A -> M unit) : M unit :=
  match l with
  | [] => ret tt
  | x :: l' => bind (body x) (fun _ => for_each l' body)
  end.

(** A [for] loop that builds a list, one element per round. *)
Fixpoint map_m {A B} (l : list A) (body : A -> M B) : M (list B) :=
  match l with
  | [] => ret []
  | x :: l' =>
      bind (body x) (fun y => bind (map_m l' body) (fun ys => ret (y :: ys)))
  end.

End Defs.
End PipelineMonad.
Import PipelineMonad.

Declare Scope pipeline_scope.
Delimit Scope pipeline_scope with pipeline.
Notation "x <- m ;; k" := (bind m (fun x => k))
  (at level 61, m at next level, right associativity) : pipeline_scope.
Notation "m ;; k" := (bind m (fun _ => k))
  (at level 61, right associativity) : pipeline_scope.
Local Open Scope pipeline_scope.

(** ** The pipeline *)

Section Pipeline.

(** Vectors and scores, as the embedding model and FAISS have them. *)
Variables vec score : Type.

(** [model.encode(texts, convert_to_numpy=True).astype('float32')]: one row
    per text, or [None] when the call raises. *)
Variable encode : list string -> option (list vec).

(** [faiss.normalize_L2], on one row. *)
Variable normalize_L2 : vec -> vec.

(** [index.search(queries, k)] on an index holding the given vectors, read
    as [zip(scores[0], indices[0])]; [None] when the call raises. *)
Variable index_search : list vec -> list vec -> Z -> option (list (score * Z)).

Local Abbreviation state := (pipeline vec).
Local Abbreviation PM := (@M (pipeline vec)).

(** [create_embeddings(texts)]. *)
Definition create_embeddings (texts : list string) : outcome (list vec) :=
  match encode texts with
  | Some embeddings => Ok embeddings
  | None => Raise ProviderError
  end.

(** [build_index(embeddings)]: the rows are normalised, then added. *)
Definition build_index (embeddings : list vec) : list vec :=
  map normalize_L2 embeddings.

(** The result loop of [retrieve]. *)
Fixpoint collect_results (chunks : list string) (hits : list (score * Z))
    : outcome (list (result score)) :=
  match hits with
  | [] => Ok []
  | (sc, idx) :: rest =>
      if 0 <=? idx then
        match PyList.getitem chunks idx with
        | Some t =>
            obind (collect_results chunks rest)
                  (fun rs => Ok (Result t sc None :: rs))
        | None => Raise IndexError
        end
      else collect_results chunks rest
  end.

(** [retrieve(query, index, chunks, top_k)]. *)
Definition retrieve (query : string) (ix : list vec) (chunks : list string)
    (top_k : Z) : outcome (list (result score)) :=
  obind (create_embeddings [query]) (fun query_embedding =>
  let query_embedding := map normalize_L2 query_embedding in
  match index_search ix query_embedding (Z.min top_k (PyList.len chunks)) with
  | Some hits => collect_results chunks hits
  | None => Raise SearchError
  end).

(** [RAGPipeline.__init__]. *)
Definition init : state := Pipeline [] [] [] None.

(** [RAGPipeline._rebuild_index]. *)
Definition _rebuild_index : PM unit :=
  modify (set_chunks []) ;;
  modify (set_chunk_sources []) ;;
  docs <- gets documents ;;
  for_each (PyList.enumerate docs) (fun '(i, doc) =>
    let doc_chunks := chunk_text_default (doc_text doc) in
    modify (fun st => set_chunks (chunks st ++ doc_chunks) st) ;;
    modify (fun st => set_chunk_sources
              (chunk_sources st ++ repeat i (List.length doc_chunks)) st)) ;;
  cs <- gets chunks ;;
  match cs with
  | _ :: _ =>
      embeddings <- lift (create_embeddings cs) ;;
      modify (set_index (Some (build_index embeddings)))
  | [] => modify (set_index None)
  end.

(** [RAGPipeline.add_document]. *)
Definition add_document (doc_id filename file_type text : string) : PM unit :=
  modify (fun st => set_documents
            (documents st ++ [Document doc_id filename file_type text]) st) ;;
  _rebuild_index.

(** [RAGPipeline.remove_document]. *)
Definition remove_document (id : string) : PM bool :=
  initial_count <- gets (fun st => PyList.len (documents st)) ;;
  modify (fun st => set_documents
            (filter (fun d => negb (String.eqb (doc_id d) id))
                    (documents st)) st) ;;
  count <- gets (fun st => PyList.len (documents st)) ;;
  if count <? initial_count then _rebuild_index ;; ret true
  else ret false.

(** The body of the attribution loop of [query], for one result. *)
Definition attach_source (r : result score) : PM (result score) :=
  cs <- gets chunks ;;
  chunk_idx <- lift (match PyList.index_of (res_text r) cs with
                     | Some i => Ok i
                     | None => Raise ValueError
                     end) ;;
  srcs <- gets chunk_sources ;;
  doc_idx <- lift (match PyList.getitem srcs chunk_idx with
                   | Some i => Ok i
                   | None => Raise IndexError
                   end) ;;
  docs <- gets documents ;;
  doc <- lift (match PyList.getitem docs doc_idx with
               | Some d => Ok d
               | None => Raise IndexError
               end) ;;
  ret (Result (res_text r) (res_score r) (Some (doc_filename doc))).

(** [RAGPipeline.query]. An index object is true, [None] is false. *)
Definition query (question : string) (top_k : Z)
    : PM (list (result score)) :=
  ix <- gets index ;;
  cs <- gets chunks ;;
  match ix, cs with
  | Some ix, _ :: _ =>
      results <- lift (retrieve question ix cs top_k) ;;
      map_m results attach_source
  | _, _ => ret []
  end.

(** [RAGPipeline.get_documents]. *)
Definition get_documents : PM (list (string * string * string)) :=
  docs <- gets documents ;;
  ret (map (fun d => (doc_id d, doc_filename d, doc_type d)) docs).

(** The public operations, and the states a session reaches from a new
    pipeline when every call so far has returned. *)
Inductive op : Type :=
| AddDocument (doc_id filename file_type text : string)
| RemoveDocument (doc_id : string)
| Query (question : string) (top_k : Z)
| GetDocuments.

Definition run_op (o : op) : PM unit :=
  match o with
  | AddDocument i f t x => add_document i f t x
  | RemoveDocument i => remove_document i ;; ret tt
  | Query q k => query q k ;; ret tt
  | GetDocuments => get_documents ;; ret tt
  end.

Inductive completed_run : state -> Prop :=
| run_init : completed_run init
| run_step st o st' :
    completed_run st -> run_op o st = (Ok tt, st') -> completed_run st'.

End Pipeline.

(** ** The consistency invariants of the Corpus *)

(** The chunks of one document, and of a document list in its order. *)
Definition doc_chunks (d : document) : list string :=
  chunk_text_default (doc_text d).

Definition all_chunks (docs : list document) : list string :=
  flat_map doc_chunks docs.

(** The owner of every chunk: the position of its document, repeated once
    per chunk of that document. *)
Definition sources_from (i : Z) (docs : list document) : list Z :=
  flat_map (fun '(i, d) => repeat i (List.length (doc_chunks d)))
           (PyList.enumerate_from i docs).

Definition all_sources (docs : list document) : list Z := sources_from 0 docs.

(** The documents [remove_document] keeps. *)
Definition keep_others (id : string) (docs : list document) : list document :=
  filter (fun d => negb (String.eqb (doc_id d) id)) docs.

Record corpus_inv {vec : Type} (st : pipeline vec) : Prop := {
  (* 1: the index is aligned with the chunks, and absent iff there are none *)
  inv_index_size :
    forall ix, index st = Some ix -> List.length ix = List.length (chunks st);
  inv_index_absent : index st = None <-> chunks st = [];
  (* 2: every chunk has an owner, and the owner is a current document *)
  inv_sources_len :
    List.length (chunk_sources st) = List.length (chunks st);
  inv_owner_present :
    Forall (fun i => exists d,
              0 <= i /\ PyList.getitem (documents st) i = Some d)
           (chunk_sources st);
  (* 3: the chunks are the documents' chunk sequences, in document order *)
  inv_chunk_order : chunks st = all_chunks (documents st);
  inv_source_order : chunk_sources st = all_sources (documents st)
}.

(** ** A small concrete provider and index

    One-dimensional integer vectors: a text is embedded as its length, the
    score of a stored vector is its product with the query, and the search
    ranks every stored position by descending score (lower position first
    among equals), padding with label [-1] as FAISS does. *)

Module Demo.

Definition encode (texts : list string) : option (list Z) :=
  Some (map PyStr.len texts).

(** A provider that raises on a batch of more than one text. *)
Definition flaky_encode (texts : list string) : option (list Z) :=
  if 1 <? PyList.len texts then None else encode texts.

Definition normalize_L2 (v : Z) : Z := v.

Fixpoint insert_hit (h : Z * Z) (l : list (Z * Z)) : list (Z * Z) :=
  match l with
  | [] => [h]
  | h' :: l' => if fst h' <=? fst h then h :: l else h' :: insert_hit h l'
  end.

Definition ranked (q : Z) (ix : list Z) : list (Z * Z) :=
  fold_right insert_hit []
    (map (fun '(i, v) => (q * v, i)) (PyList.enumerate ix)).

Definition index_search (ix queries : list Z) (k : Z)
    : option (list (Z * Z)) :=
  match queries with
  | [] => None
  | q :: _ =>
      if k <=? 0 then None
      else Some (firstn (Z.to_nat k)
                   (ranked q ix ++ repeat (0, -1) (Z.to_nat k)))
  end.

Definition flaky_add := add_document Z flaky_encode normalize_L2.
Definition flaky_query := query Z Z flaky_encode normalize_L2 index_search.
Definition query := query Z Z encode normalize_L2 index_search.
Definition add_document := add_document Z encode normalize_L2.
Definition remove_document := remove_document Z encode normalize_L2.

(** Two sessions: two documents with different texts, and two documents
    with the same text. *)
Definition two_docs : pipeline Z :=
  snd (add_document "b" "b.txt" "txt" "Hello world"
         (snd (add_document "a" "a.txt" "txt" "Hello" (init Z)))).

Definition same_text_docs : pipeline Z :=
  snd (add_document "b" "b.txt" "txt" "Hello"
         (snd (add_document "a" "a.txt" "txt" "Hello" (init Z)))).

(** A session with the flaky provider: the first upload returns, the
    second raises in the rebuild. *)
Definition after_failed_add : pipeline Z :=
  snd (flaky_add "b" "b.txt" "txt" "Hello world"
         (snd (flaky_add "a" "a.txt" "txt" "Hello" (init Z)))).

End Demo.

(** ** Further notions used by the properties *)

(** [c in t] for strings: [c] is a contiguous part of [t]. *)
Definition is_substring (c t : string) : Prop :=
  exists pre post, t = (pre ++ c ++ post)%string.

(** The filename that belongs to the chunk at position [idx]: the owner
    recorded in [chunk_sources] at that position, looked up in
    [documents]. *)
Definition owner_filename {vec : Type} (st : pipeline vec) (idx : Z)
    : option string :=
  match PyList.getitem (chunk_sources st) idx with
  | Some doc_idx =>
      option_map doc_filename (PyList.getitem (documents st) doc_idx)
  | None => None
  end.

(** ** More string and dict primitives *)

Module PyStr2.

(** [str.lower] on one code point below 256: the ASCII capitals and the
    Latin-1 capitals (all of 192..222 but the multiplication sign). *)
Definition lower_char (c : ascii) : ascii :=
  let n := nat_of_ascii c in
  if ((65 <=? n) && (n <=? 90)
      || (192 <=? n) && (n <=? 222) && negb (n =? 215))%nat
  then ascii_of_nat (n + 32) else c.

Fixpoint lower (s : string) : string :=
  match s with
  | EmptyString => EmptyString
  | String c s' => String (lower_char c) (lower s')
  end.

(** [sep.join(parts)]. *)
Definition join (sep : string) (parts : list string) : string :=
  String.concat sep parts.

End PyStr2.

(** A [dict] with string keys: the bindings in insertion order, one per
    key. *)
Module PyDict.
Section Ops.
Context {V : Type}.

Definition dict := list (string * V).

(** [d.get(k)]. *)
Fixpoint get (k : string) (d : dict) : option V :=
  match d with
  | [] => None
  | (k', v) :: d' => if String.eqb k' k then Some v else get k d'
  end.

(** [k in d]. *)
Definition mem (k : string) (d : dict) : bool :=
  match get k d with Some _ => true | None => false end.

(** [d[k] = v]: the binding is replaced where it is, or added at the
    end. *)
Fixpoint set (k : string) (v : V) (d : dict) : dict :=
  match d with
  | [] => [(k, v)]
  | (k', v') :: d' =>
      if String.eqb k' k then (k, v) :: d' else (k', v') :: set k v d'
  end.

(** [del d[k]], for a key that is present. *)
Fixpoint del (k : string) (d : dict) : dict :=
  match d with
  | [] => []
  | (k', v') :: d' => if String.eqb k' k then d' else (k', v') :: del k d'
  end.

(** A dict holds one binding per key. *)
Definition wf (d : dict) : Prop := NoDup (map fst d).

End Ops.
Arguments dict V : clear implicits.
End PyDict.

(** ** Document loaders (backend/loaders.py) *)

Module Loaders.

(** What [json.load] returns: [None], a bool, a number (kept as its
    literal), a string, a list, or a dict. *)
#[warnings="-register-all"]
Inductive json : Type :=
| JNull
| JBool (b : bool)
| JNumber (literal : string)
| JString (s : string)
| JList (items : list json)
| JDict (members : list (string * json)).

(** [extract_strings(obj, texts)] of [load_json]: [texts] is the list the
    calls share and append to; the value is that list after the call. *)
Fixpoint extract_strings (obj : json) (texts : list string) : list string :=
  match obj with
  | JString s => texts ++ [s]
  | JDict members =>
      (fix values (ms : list (string * json)) (acc : list string) :=
         match ms with
         | [] => acc
         | (_, v) :: ms' => values ms' (extract_strings v acc)
         end) members texts
  | JList items =>
      (fix each (xs : list json) (acc : list string) :=
         match xs with
         | [] => acc
         | item :: xs' => each xs' (extract_strings item acc)
         end) items texts
  | _ => texts
  end.

(** Induction over a JSON value and, inside it, over the items of a list
    and the values of a dict. *)
Section JsonInduction.

Variable P : json -> Prop.
Hypothesis HNull : P JNull.
Hypothesis HBool : forall b, P (JBool b).
Hypothesis HNumber : forall literal, P (JNumber literal).
Hypothesis HString : forall s, P (JString s).
Hypothesis HList : forall items, Forall P items -> P (JList items).
Hypothesis HDict : forall members,
  Forall (fun m => P (snd m)) members -> P (JDict members).


End JsonInduction.

Section Readers.

(** What the libraries under the loaders raise, and what they read from
    a path: the text of each page of a PDF, the text of each paragraph of
    a DOCX, the decoded content of a text file, the parsed content of a
    JSON file. *)
Variable E : Type.
Variable pdf_pages : string -> E + list string.
Variable docx_paragraphs : string -> E + list string.
Variable read_text : string -> E + string.
Variable read_json : string -> E + json.

(** [Path(file_path).name]. *)
Variable path_name : string -> string.

(** [load_pdf]. *)
Definition load_pdf (file_path : string) : E + string :=
  match pdf_pages file_path with
  | inl e => inl e
  | inr pages =>
      inr (PyStr.strip (fold_left (fun text page => text ++ page)%string
                                  pages ""))
  end.

(** [load_docx]. *)
Definition load_docx (file_path : string) : E + string :=
  match docx_paragraphs file_path with
  | inl e => inl e
  | inr texts =>
      inr (PyStr2.join (LF ++ LF)
             (filter (fun t => PyStr.truthy (PyStr.strip t)) texts))
  end.

(** [load_txt]. *)
Definition load_txt (file_path : string) : E + string :=
  match read_text file_path with
  | inl e => inl e
  | inr content => inr (PyStr.strip content)
  end.

(** [load_json]. *)
Definition load_json (file_path : string) : E + string :=
  match read_json file_path with
  | inl e => inl e
  | inr data => inr (PyStr2.join LF (extract_strings data []))
  end.

(** The [loaders] table of [load_document]. *)
Definition loaders : PyDict.dict (string -> E + string) :=
  [("pdf", load_pdf); ("docx", load_docx); ("txt", load_txt);
   ("md", load_txt); ("json", load_json)].

(** What [load_document] raises: its own ValueError with a message, or
    what the reader raised. *)
Inductive load_error : Type :=
| UnsupportedFileType (message : string)
| ReaderError (e : E).

(** [load_document(file_path, file_type)]: the text and the metadata
    [{"filename", "type"}]. *)
Definition load_document (file_path file_type : string)
    : load_error + (string * (string * string)) :=
  let metadata := (path_name file_path, file_type) in
  match PyDict.get (PyStr2.lower file_type) loaders with
  | None =>
      inl (UnsupportedFileType ("Unsupported file type: " ++ file_type))
  | Some loader =>
      match loader file_path with
      | inl e => inl (ReaderError e)
      | inr text => inr (text, metadata)
      end
  end.

End Readers.

Arguments UnsupportedFileType {E} message.
Arguments ReaderError {E} e.

End Loaders.

(** [SUPPORTED_EXTENSIONS] of backend/main.py. *)
Definition SUPPORTED_EXTENSIONS : list string :=
  [".pdf"; ".docx"; ".txt"; ".md"; ".json"].

(** ** Sessions and prompts (backend/main.py) *)

Module Server.

(** A message of the conversation history, [{"role", "content"}]. *)
Record message : Type := Message {
  role : string;
  content : string
}.

(** A [Session] object. A [datetime] is a count of microseconds. *)
Record session (vec : Type) : Type := Session {
  session_pipeline : pipeline vec;
  last_active : Z;
  messages : list message
}.
Arguments Session {vec} _ _ _.
Arguments session_pipeline {vec} _.
Arguments last_active {vec} _.
Arguments messages {vec} _.

Definition SESSION_TTL_MINUTES : Z := 30.

(** [timedelta(minutes=m)], in microseconds. *)
Definition timedelta_minutes (m : Z) : Z := m * 60 * 1000000.

(** What an endpoint raises: a missing key, or what the pipeline
    raised. *)
Inductive server_error : Type :=
| KeyError
| PipelineError (e : exn).

Definition DQUOTE : string := String (ascii_of_nat 34) EmptyString.

(** [l[-n:]] for a positive [n]. *)
Definition last_n {A} (n : nat) (l : list A) : list A :=
  skipn (List.length l - n) l.

(** The list comprehension over [context]; [None] is the KeyError of a
    result without ["source"]. *)
Fixpoint context_lines {score} (context : list (result score))
    : option (list string) :=
  match context with
  | [] => Some []
  | c :: rest =>
      match res_source c with
      | None => None
      | Some source =>
          match context_lines rest with
          | None => None
          | Some lines =>
              Some (("[Source: " ++ source ++ "]" ++ LF ++ res_text c)%string
                    :: lines)
          end
      end
  end.

Definition history_line (m : message) : string :=
  ((if String.eqb (role m) "user" then "User" else "Assistant")
   ++ ": " ++ content m)%string.

Definition system_prompt : string :=
  ("You are a helpful AI assistant that answers questions "
   ++ "based on the provided documents."
   ++ LF ++ "Rules:"
   ++ LF ++ "- Only use information from the provided context"
   ++ LF ++ "- If the answer isn't in the context, say " ++ DQUOTE
   ++ "I don't have that information in the uploaded documents" ++ DQUOTE
   ++ LF ++ "- Be concise and helpful"
   ++ LF ++ "- Cite sources when possible")%string.

(** [build_prompt(question, context, history)]: the system prompt and
    the user prompt; [None] is the KeyError of the comprehension. *)
Definition build_prompt {score} (question : string)
    (context : list (result score)) (history : list message)
    : option (string * string) :=
  match (match context with
         | [] => Some "No documents uploaded yet."
         | _ :: _ => option_map (PyStr2.join (LF ++ LF))
                                (context_lines context)
         end) with
  | None => None
  | Some context_text =>
      let history_text :=
        match history with
        | [] => ""
        | _ :: _ => PyStr2.join LF (map history_line (last_n 6 history))
        end in
      let previous :=
        if PyStr.truthy history_text
        then ("Previous conversation:" ++ LF ++ history_text ++ LF ++ LF)%string
        else "" in
      let user_prompt :=
        ("Context from documents:" ++ LF ++ context_text ++ LF ++ LF
         ++ previous ++ "Question: " ++ question ++ LF ++ LF
         ++ "Answer based on the context above:")%string in
      Some (system_prompt, user_prompt)
  end.

Section Sessions.

Variable vec : Type.

(** The module-level [sessions] dict. *)
Definition sessions : Type := PyDict.dict (session vec).

(** [get_session(session_id)]: [now0] is the clock that [Session()]
    reads, [now] the clock read after it. The value is the session, which
    is also the one bound in the dict. *)
Definition get_session (now0 now : Z) (session_id : string) (d : sessions)
    : (server_error + session vec) * sessions :=
  let d1 := if negb (PyDict.mem session_id d)
            then PyDict.set session_id (Session (init vec) now0 []) d
            else d in
  match PyDict.get session_id d1 with
  | None => (inl KeyError, d1)
  | Some s =>
      let s' := Session (session_pipeline s) now (messages s) in
      (inr s', PyDict.set session_id s' d1)
  end.

(** [cleanup_sessions()] at clock [now]. *)
Definition cleanup_sessions (now : Z) (d : sessions) : sessions :=
  let cutoff := now - timedelta_minutes SESSION_TTL_MINUTES in
  let expired :=
    map fst (filter (fun '(sid, s) => last_active s <? cutoff) d) in
  fold_left (fun d sid => PyDict.del sid d) expired d.

(** [health_check()]: the number of active sessions, after the
    cleanup. *)
Definition health_check (now : Z) (d : sessions) : Z * sessions :=
  let d' := cleanup_sessions now d in
  (PyList.len d', d').

(** [end_session(x_session_id)]: the status, and the dict it leaves. *)
Definition end_session (session_id : string) (d : sessions)
    : string * sessions :=
  if PyDict.mem session_id d
  then ("session ended", PyDict.del session_id d)
  else ("session not found", d).

End Sessions.

Section Chat.

Variables vec score : Type.
Variable encode : list string -> option (list vec).
Variable normalize_L2 : vec -> vec.
Variable index_search : list vec -> list vec -> Z -> option (list (score * Z)).

(** A [ChatRequest]. *)
Record chat_request : Type := ChatRequest {
  req_message : string;
  req_provider : string;
  req_model : option string;
  req_api_key : option string
}.

(** [generate_answer], which calls the language model and turns what the
    provider raises into an answer text. *)
Variable generate_answer :
  string -> list (result score) -> list message -> chat_request -> string.

(** [chat(request, x_session_id)]: the [ChatResponse] (answer and
    sources) and the dict it leaves. *)
Definition chat (now0 now : Z) (request : chat_request)
    (session_id : string) (d : sessions vec)
    : (server_error + (string * list (result score))) * sessions vec :=
  match get_session vec now0 now session_id d with
  | (inl e, d1) => (inl e, d1)
  | (inr session, d1) =>
      match query vec score encode normalize_L2 index_search
              (req_message request) 3 (session_pipeline session) with
      | (Raise e, p) =>
          (inl (PipelineError e),
           PyDict.set session_id
             (Session p (last_active session) (messages session)) d1)
      | (Ok context, p) =>
          let answer :=
            generate_answer (req_message request) context
              (messages session) request in
          let history :=
            messages session
            ++ [Message "user" (req_message request)]
            ++ [Message "assistant" answer] in
          (inr (answer, context),
           PyDict.set session_id
             (Session p (last_active session) history) d1)
      end
  end.

End Chat.

End Server.

Example chunk_text_sky :
  chunk_text 10 "The sky is blue. Water is wet." 15 3
  = Some ["The sky is blue"; "lue. Water is w"; "s wet."].
Proof. vm_compute. reflexivity. Qed.

(** ** Facts about the string primitives *)

Module PyStrFacts.
Import PyStr.

Lemma drop_empty n : drop n "" = "".
Proof. destruct n; reflexivity. Qed.

(** What the scan returns: either no occurrence and the initial [last], or
    the offset of the last occurrence. *)
Lemma rfind_from_spec sep s : forall i last,
  (rfind_from sep s i last = last /\
   forall n, (n <= String.length s)%nat -> startswith sep (drop n s) = false)
  \/
  (exists n, (n <= String.length s)%nat /\
     rfind_from sep s i last = i + Z.of_nat n /\
     startswith sep (drop n s) = true /\
     forall m, (n < m <= String.length s)%nat ->
               startswith sep (drop m s) = false).
Proof.
  induction s as [|c s IH]; intros i last.
  - cbn [rfind_from]. destruct (startswith sep "") eqn:E.
    + right. exists 0%nat. cbn [String.length drop].
      repeat split; [lia | lia | exact E | intros m Hm; lia].
    + left. split; [reflexivity|]. intros n _. now rewrite drop_empty.
  - cbn [rfind_from].
    destruct (IH (i + 1) (if startswith sep (String c s) then i else last))
      as [[Hr Hno] | (n & Hn & Hr & Hocc & Hlast)].
    + destruct (startswith sep (String c s)) eqn:E.
      * right. exists 0%nat. cbn [String.length drop].
        repeat split; [lia | lia | exact E |].
        intros [|m] Hm; [lia|]. cbn [drop]. apply Hno. lia.
      * left. split; [exact Hr|].
        intros [|n] Hn; cbn [drop]; [exact E|]. apply Hno.
        cbn [String.length] in Hn. lia.
    + right. exists (S n). cbn [String.length drop].
      repeat split; [lia | lia | exact Hocc |].
      intros [|m] Hm; [lia|]. cbn [drop]. apply Hlast. lia.
Qed.

Lemma rfind_lower s sep : -1 <= rfind s sep.
Proof.
  unfold rfind.
  destruct (rfind_from_spec sep s 0 (-1)) as [[-> _] | (n & _ & -> & _)]; lia.
Qed.

(** A non-negative [rfind] is an occurrence. *)
Lemma rfind_occurs s sep :
  0 <= rfind s sep -> occurs_at s sep (rfind s sep) = true.
Proof.
  unfold rfind, occurs_at, len.
  destruct (rfind_from_spec sep s 0 (-1))
    as [[-> _] | (n & Hn & -> & Hocc & _)]; [lia|].
  intros _. rewrite Z.add_0_l, Nat2Z.id, Hocc.
  rewrite andb_true_r. apply andb_true_intro. split.
  - apply Z.leb_le. lia.
  - apply Z.leb_le. lia.
Qed.

(** No occurrence lies after [rfind]. *)
Lemma rfind_last s sep p :
  occurs_at s sep p = true -> p <= rfind s sep.
Proof.
  unfold rfind, occurs_at, len. intros H.
  apply andb_prop in H. destruct H as [H Hs].
  apply andb_prop in H. destruct H as [H0 Hl].
  apply Z.leb_le in H0. apply Z.leb_le in Hl.
  assert (Hp : (Z.to_nat p <= String.length s)%nat) by lia.
  destruct (rfind_from_spec sep s 0 (-1))
    as [[_ Hno] | (n & Hn & -> & _ & Hlast)].
  - rewrite (Hno _ Hp) in Hs. discriminate.
  - destruct (Nat.le_gt_cases (Z.to_nat p) n) as [Hle | Hgt]; [lia|].
    rewrite (Hlast (Z.to_nat p)) in Hs by lia. discriminate.
Qed.

End PyStrFacts.

(** ** Facts about the chunker *)

(** The separator chosen by the [for]/[break] loop. *)
Lemma sentence_end_some seps w cs start e :
  sentence_end seps w cs start = Some e ->
  exists pre sep post,
    seps = pre ++ sep :: post /\
    (forall s', In s' pre -> PyStr.rfind w s' <= cs / 2) /\
    cs / 2 < PyStr.rfind w sep /\
    e = start + PyStr.rfind w sep + PyStr.len sep.
Proof.
  induction seps as [|sep rest IH]; cbn [sentence_end]; [discriminate|].
  destruct (cs / 2 <? PyStr.rfind w sep) eqn:E.
  - intros [= <-]. exists [], sep, rest. apply Z.ltb_lt in E.
    repeat split; [intros s' [] | exact E].
  - intros H. destruct (IH H) as (pre & s0 & post & -> & Hpre & Hgt & ->).
    exists (sep :: pre), s0, post. apply Z.ltb_ge in E.
    repeat split; [|exact Hgt].
    intros s' [<- | Hin]; [exact E | now apply Hpre].
Qed.

Lemma sentence_end_none seps w cs start :
  sentence_end seps w cs start = None ->
  forall sep, In sep seps -> PyStr.rfind w sep <= cs / 2.
Proof.
  induction seps as [|sep rest IH]; cbn [sentence_end]; [intros _ ? []|].
  destruct (cs / 2 <? PyStr.rfind w sep) eqn:E; [discriminate|].
  intros H s' [<- | Hin]; [now apply Z.ltb_ge in E | now apply IH].
Qed.

Lemma separators_len sep : In sep separators -> PyStr.len sep = 2.
Proof.
  cbn. intros [<- | [<- | [<- | [<- | [<- | []]]]]]; reflexivity.
Qed.

(** One round of the loop moves [start] forward when the overlap is below
    the chunk size and at most two past the midpoint. *)
Lemma window_end_advance text cs ov start :
  0 < cs -> ov < cs -> ov <= cs / 2 + 2 ->
  start < window_end text cs start - ov.
Proof.
  intros Hcs Hov Hmid. unfold window_end.
  destruct (start + cs <? PyStr.len text); [|lia].
  destruct (sentence_end separators _ cs start) as [e|] eqn:E; [|lia].
  apply sentence_end_some in E.
  destruct E as (pre & sep & post & Hs & _ & Hgt & ->).
  rewrite (separators_len sep); [lia|].
  rewrite Hs. apply in_or_app. right. now left.
Qed.

Lemma chunk_loop_terminates text cs ov :
  (forall start, start < window_end text cs start - ov) ->
  forall fuel start chunks,
    (0 < fuel)%nat -> PyStr.len text - start < Z.of_nat fuel ->
    exists r, chunk_loop fuel text cs ov start chunks = Some r.
Proof.
  intros Hadv. induction fuel as [|fuel IH]; intros start chunks Hpos Hlt.
  - lia.
  - cbn [chunk_loop]. destruct (start <? PyStr.len text) eqn:E.
    + apply Z.ltb_lt in E. specialize (Hadv start).
      apply IH; lia.
    + now exists chunks.
Qed.

(** More fuel does not change a result. *)
Lemma chunk_loop_fuel_mono text cs ov : forall fuel fuel' start chunks r,
  chunk_loop fuel text cs ov start chunks = Some r ->
  (fuel <= fuel')%nat ->
  chunk_loop fuel' text cs ov start chunks = Some r.
Proof.
  induction fuel as [|fuel IH]; intros fuel' start chunks r H Hle.
  - discriminate.
  - destruct fuel' as [|fuel']; [lia|]. cbn [chunk_loop] in *.
    destruct (start <? PyStr.len text); [|exact H].
    eapply IH; [exact H | lia].
Qed.

Lemma chunk_text_fuel_mono text cs ov fuel fuel' r :
  chunk_text fuel text cs ov = Some r -> (fuel <= fuel')%nat ->
  chunk_text fuel' text cs ov = Some r.
Proof.
  unfold chunk_text.
  destruct (negb (PyStr.truthy text) || (PyStr.len text <=? cs));
    [trivial|]. apply chunk_loop_fuel_mono.
Qed.

Lemma chunk_text_terminates text cs ov :
  0 < cs -> ov < cs -> ov <= cs / 2 + 2 ->
  exists r, chunk_text (S (String.length text)) text cs ov = Some r.
Proof.
  intros Hcs Hov Hmid. unfold chunk_text.
  destruct (negb (PyStr.truthy text) || (PyStr.len text <=? cs));
    [eauto|].
  apply chunk_loop_terminates.
  - intros start. now apply window_end_advance.
  - lia.
  - unfold PyStr.len. lia.
Qed.

(** The pipeline's call always returns, and [chunk_text_default] is its
    result. *)
Lemma chunk_text_default_eq text fuel :
  (String.length text < fuel)%nat ->
  chunk_text fuel text default_chunk_size default_overlap
  = Some (chunk_text_default text).
Proof.
  intros Hf.
  destruct (chunk_text_terminates text default_chunk_size default_overlap)
    as [r Hr]; [reflexivity | reflexivity | discriminate |].
  unfold chunk_text_default. rewrite Hr.
  eapply chunk_text_fuel_mono; [exact Hr | lia].
Qed.


(** ** Facts about the pipeline *)

Lemma sources_from_app i docs d :
  sources_from i (docs ++ [d])
  = sources_from i docs
    ++ repeat (i + PyList.len docs) (List.length (doc_chunks d)).
Proof.
  unfold sources_from, PyList.len. revert i.
  induction docs as [|d0 docs IH]; intros i; cbn.
  - now rewrite Z.add_0_r, app_nil_r.
  - rewrite IH, <- app_assoc. do 3 f_equal. lia.
Qed.

Lemma sources_from_length i docs :
  List.length (sources_from i docs) = List.length (all_chunks docs).
Proof.
  unfold sources_from, all_chunks. revert i.
  induction docs as [|d docs IH]; intros i; cbn; [reflexivity|].
  now rewrite !length_app, repeat_length, IH.
Qed.

Lemma sources_from_range i docs :
  Forall (fun j => i <= j < i + PyList.len docs) (sources_from i docs).
Proof.
  unfold sources_from, PyList.len. revert i.
  induction docs as [|d docs IH]; intros i;
    cbn [PyList.enumerate_from flat_map].
  - constructor.
  - apply Forall_app. split.
    + apply Forall_forall. intros j Hj. apply repeat_spec in Hj. subst j.
      cbn [List.length]. lia.
    + eapply Forall_impl; [|apply IH]. cbn [List.length]. intros j Hj. lia.
Qed.

Lemma getitem_in_range {A} (l : list A) i :
  0 <= i < PyList.len l -> exists x, PyList.getitem l i = Some x.
Proof.
  unfold PyList.getitem, PyList.len. intros H.
  destruct (i <? 0) eqn:E; [apply Z.ltb_lt in E; lia|].
  destruct (nth_error l (Z.to_nat i)) eqn:N; [eauto|].
  apply nth_error_None in N. lia.
Qed.

Lemma getitem_some_in {A} (l : list A) i x :
  PyList.getitem l i = Some x -> In x l.
Proof.
  unfold PyList.getitem.
  destruct (i <? 0); [destruct (_ <? 0); [discriminate|]|];
    apply nth_error_In.
Qed.

(** [l.index(x)] finds every member, at a position inside the list. *)
Lemma index_of_in x l :
  In x l -> exists i, PyList.index_of x l = Some i /\ 0 <= i < PyList.len l.
Proof.
  unfold PyList.len. induction l as [|y l IH]; [intros []|].
  intros Hin. cbn [PyList.index_of].
  destruct (String.eqb_spec y x) as [->|Hne].
  - exists 0. cbn [List.length]. split; [reflexivity | lia].
  - destruct Hin as [->|Hin]; [contradiction|].
    destruct (IH Hin) as (i & -> & Hi). exists (Z.succ i).
    cbn [option_map List.length]. split; [reflexivity | lia].
Qed.

Section PipelineFacts.

Variables vec score : Type.
Variable encode : list string -> option (list vec).
Variable normalize_L2 : vec -> vec.
Variable index_search : list vec -> list vec -> Z -> option (list (score * Z)).

Local Abbreviation state := (pipeline vec).
Local Abbreviation rebuild := (_rebuild_index vec encode normalize_L2).
Local Abbreviation add := (add_document vec encode normalize_L2).
Local Abbreviation remove := (remove_document vec encode normalize_L2).
Local Abbreviation ask :=
  (query vec score encode normalize_L2 index_search).
Local Abbreviation run :=
  (run_op vec score encode normalize_L2 index_search).
Local Abbreviation completed :=
  (completed_run vec score encode normalize_L2 index_search).

(** The chunking loop of [_rebuild_index] appends every document's chunks
    and owners, in order, and never raises. *)
Lemma rebuild_loop docs : forall i (st : state),
  for_each (PyList.enumerate_from i docs) (fun '(i, doc) =>
    let doc_chunks := chunk_text_default (doc_text doc) in
    modify (fun st => set_chunks (chunks st ++ doc_chunks) st) ;;
    modify (fun st => set_chunk_sources
              (chunk_sources st ++ repeat i (List.length doc_chunks)) st)) st
  = (Ok tt, Pipeline (documents st) (chunks st ++ all_chunks docs)
              (chunk_sources st ++ sources_from i docs) (index st)).
Proof.
  induction docs as [|d docs IH]; intros i st.
  - cbn. rewrite !app_nil_r. now destruct st.
  - cbn [PyList.enumerate_from for_each]. unfold bind at 1.
    unfold bind at 1, modify at 1 2. rewrite IH. cbn.
    unfold sources_from, all_chunks. cbn. now rewrite !app_assoc.
Qed.

(** What a rebuild leaves behind. When the provider raises, the chunk
    list and the owners are already the new ones and the index is still
    the old one. *)
Lemma rebuild_spec (st : state) :
  rebuild st =
  let docs := documents st in
  match all_chunks docs with
  | [] => (Ok tt, Pipeline docs [] [] None)
  | _ :: _ =>
      match encode (all_chunks docs) with
      | Some embeddings =>
          (Ok tt, Pipeline docs (all_chunks docs) (all_sources docs)
                    (Some (map normalize_L2 embeddings)))
      | None =>
          (Raise ProviderError,
           Pipeline docs (all_chunks docs) (all_sources docs) (index st))
      end
  end.
Proof.
  unfold _rebuild_index, PyList.enumerate.
  unfold bind at 1, modify at 1. unfold bind at 1, modify at 1.
  unfold bind at 1, gets at 1. unfold bind at 1.
  rewrite rebuild_loop. cbn.
  fold (all_chunks (documents st)).
  change (flat_map _ (PyList.enumerate_from 0 (documents st)))
    with (sources_from 0 (documents st)).
  unfold all_sources.
  destruct (all_chunks (documents st)) as [|c cs] eqn:E.
  - assert (Hs : sources_from 0 (documents st) = []).
    { apply length_zero_iff_nil. now rewrite sources_from_length, E. }
    now rewrite Hs.
  - unfold create_embeddings, build_index.
    destruct (encode (c :: cs)); reflexivity.
Qed.

Lemma add_document_spec i f t x (st : state) :
  add i f t x st
  = rebuild (set_documents (documents st ++ [Document i f t x]) st).
Proof. reflexivity. Qed.

Lemma remove_document_spec id (st : state) :
  remove id st
  = if PyList.len (keep_others id (documents st)) <? PyList.len (documents st)
    then match rebuild (set_documents (keep_others id (documents st)) st) with
         | (Ok _, st') => (Ok true, st')
         | (Raise e, st') => (Raise e, st')
         end
    else (Ok false, set_documents (keep_others id (documents st)) st).
Proof.
  unfold remove_document, keep_others.
  unfold bind at 1, gets at 1. unfold bind at 1, modify at 1.
  unfold bind at 1, gets at 1. cbn [documents set_documents].
  destruct (_ <? _); [|reflexivity].
  unfold bind. destruct (rebuild _) as [[[]|e] st']; reflexivity.
Qed.

Lemma keep_others_same_length id docs :
  List.length (keep_others id docs) = List.length docs ->
  keep_others id docs = docs.
Proof.
  unfold keep_others. induction docs as [|d docs IH]; cbn; [reflexivity|].
  destruct (negb (doc_id d =? id)%string); cbn.
  - intros [= H]. now rewrite IH.
  - intros H. pose proof (filter_length_le
      (fun d => negb (doc_id d =? id)%string) docs). lia.
Qed.

(** *** Frame of [query] *)

Lemma attach_source_frame r (st : state) :
  snd (attach_source vec score r st) = st.
Proof.
  unfold attach_source, bind, gets, lift, ret.
  destruct (PyList.index_of _ _) as [ci|]; [|reflexivity].
  destruct (PyList.getitem _ ci) as [di|]; [|reflexivity].
  destruct (PyList.getitem _ di); reflexivity.
Qed.

Lemma map_m_frame {A B} (body : A -> @M state B) :
  (forall x st, snd (body x st) = st) ->
  forall l st, snd (map_m l body st) = st.
Proof.
  intros Hbody. induction l as [|x l IH]; intros st; [reflexivity|].
  cbn [map_m]. unfold bind at 1. specialize (Hbody x st).
  destruct (body x st) as [[y|e] st1]; cbn in Hbody; subst st1;
    [|reflexivity].
  unfold bind. specialize (IH st).
  destruct (map_m l body st) as [[ys|e] st2]; exact IH.
Qed.

Lemma query_frame question top_k (st : state) :
  snd (ask question top_k st) = st.
Proof.
  unfold query. unfold bind at 1, gets at 1. unfold bind at 1, gets at 1.
  destruct (index st) as [ix|]; [|reflexivity].
  destruct (chunks st) as [|c cs]; [reflexivity|].
  unfold bind, lift.
  destruct (retrieve _ _ _ _ _ _ _ _ _) as [rs|e]; [|reflexivity].
  apply map_m_frame, attach_source_frame.
Qed.

(** *** The invariants *)

Lemma init_inv : corpus_inv (init vec).
Proof.
  constructor; cbn; try reflexivity; try constructor; try discriminate;
    reflexivity.
Qed.

Section ProviderContract.

(** The provider returns one vector per text. *)
Hypothesis encode_length : forall texts embeddings,
  encode texts = Some embeddings ->
  List.length embeddings = List.length texts.

(** A rebuild that returns leaves a consistent state, whatever it started
    from. *)
Lemma rebuild_inv (st st' : state) :
  rebuild st = (Ok tt, st') -> corpus_inv st'.
Proof.
  rewrite rebuild_spec. cbv zeta.
  destruct (all_chunks (documents st)) as [|c cs] eqn:E.
  - intros [= <-].
    assert (Hs : all_sources (documents st) = []).
    { apply length_zero_iff_nil. unfold all_sources.
      now rewrite sources_from_length, E. }
    constructor; cbn [index chunks chunk_sources documents].
    + discriminate.
    + split; reflexivity.
    + reflexivity.
    + constructor.
    + now rewrite E.
    + now rewrite Hs.
  - destruct (encode (c :: cs)) as [em|] eqn:Enc; [|discriminate].
    intros [= <-]. constructor; cbn [index chunks chunk_sources documents].
    + intros ix [= <-]. rewrite length_map. now apply encode_length.
    + split; discriminate.
    + unfold all_sources. now rewrite sources_from_length, E.
    + eapply Forall_impl; [|apply sources_from_range].
      intros i Hi. cbn beta in Hi.
      destruct (getitem_in_range (documents st) i) as [d Hd]; [lia|].
      exists d. split; [lia | exact Hd].
    + now rewrite E.
    + reflexivity.
Qed.

Lemma run_op_inv o (st st' : state) :
  corpus_inv st -> run o st = (Ok tt, st') -> corpus_inv st'.
Proof.
  intros Hinv. destruct o as [i f t x | i | q k |]; cbn [run_op].
  - rewrite add_document_spec. apply rebuild_inv.
  - unfold bind. rewrite remove_document_spec.
    destruct (_ <? _) eqn:E.
    + destruct (rebuild _) as [[[]|e] st1] eqn:R; [|discriminate].
      intros [= <-]. eapply rebuild_inv, R.
    + intros [= <-]. apply Z.ltb_ge in E.
      rewrite keep_others_same_length.
      * now destruct st.
      * pose proof (filter_length_le
          (fun d => negb (doc_id d =? i)%string) (documents st)).
        unfold PyList.len, keep_others in *. lia.
  - unfold bind. pose proof (query_frame q k st) as Hf.
    destruct (ask q k st) as [[rs|e] st1]; [|discriminate].
    cbn in Hf. subst st1. now intros [= <-].
  - intros [= <-]. exact Hinv.
Qed.

Lemma completed_inv (st : state) : completed st -> corpus_inv st.
Proof.
  induction 1 as [|st o st' _ IH Hstep]; [apply init_inv|].
  eapply run_op_inv; eassumption.
Qed.

(** *** How many results [query] returns *)

(** Labels inside the chunk list give one result each. *)
Lemma collect_results_ok (cs : list string) (hits : list (score * Z)) :
  Forall (fun h => 0 <= snd h < PyList.len cs) hits ->
  exists rs, collect_results score cs hits = Ok rs /\
    List.length rs = List.length hits /\
    Forall (fun r => In (res_text r) cs) rs.
Proof.
  induction 1 as [|[sc idx] hits Hh _ IH]; cbn [collect_results].
  - exists []. repeat split. constructor.
  - cbn [snd] in Hh. destruct IH as (rs & -> & Hlen & Hin).
    destruct (0 <=? idx) eqn:E; [|apply Z.leb_gt in E; lia].
    destruct (getitem_in_range cs idx Hh) as [t Ht]. rewrite Ht.
    exists (Result t sc None :: rs). cbn. repeat split; [now rewrite Hlen|].
    constructor; [|exact Hin]. cbn. eapply getitem_some_in, Ht.
Qed.

(** In a consistent state the attribution of a retrieved text returns. *)
Lemma attach_source_ok r (st : state) :
  corpus_inv st -> In (res_text r) (chunks st) ->
  exists r', attach_source vec score r st = (Ok r', st).
Proof.
  intros Hinv Hin. unfold attach_source, bind, gets, lift, ret.
  destruct (index_of_in _ _ Hin) as (ci & -> & Hci).
  destruct (getitem_in_range (chunk_sources st) ci) as [di Hdi].
  { unfold PyList.len in *. now rewrite (inv_sources_len st Hinv). }
  rewrite Hdi.
  pose proof (inv_owner_present st Hinv) as Hown.
  rewrite Forall_forall in Hown.
  destruct (Hown di (getitem_some_in _ _ _ Hdi)) as (d & _ & ->).
  eauto.
Qed.

Lemma map_m_attach_ok (st : state) rs :
  corpus_inv st -> Forall (fun r => In (res_text r) (chunks st)) rs ->
  exists rs', map_m rs (attach_source vec score) st = (Ok rs', st) /\
    List.length rs' = List.length rs.
Proof.
  intros Hinv. induction 1 as [|r rs Hr _ IH]; cbn [map_m].
  - exists []. split; reflexivity.
  - destruct (attach_source_ok r st Hinv Hr) as [r' Hr'].
    destruct IH as (rs' & Hrs & Hlen).
    unfold bind at 1. rewrite Hr'. unfold bind at 1. rewrite Hrs.
    exists (r' :: rs'). cbn. split; [reflexivity | now rewrite Hlen].
Qed.

(** The index returns a valid label in every slot when asked for no more
    vectors than it holds. *)
Hypothesis search_full : forall ix queries k,
  queries <> [] -> 0 < k <= PyList.len ix ->
  exists hits, index_search ix queries k = Some hits /\
    List.length hits = Z.to_nat k /\
    Forall (fun h => 0 <= snd h < PyList.len ix) hits.

Lemma query_empty question top_k (st : state) :
  chunks st = [] -> ask question top_k st = (Ok [], st).
Proof.
  intros Hc. unfold query. unfold bind at 1, gets at 1.
  unfold bind at 1, gets at 1. rewrite Hc.
  destruct (index st); reflexivity.
Qed.

Lemma query_all question top_k (st : state) :
  corpus_inv st -> chunks st <> [] ->
  PyList.len (chunks st) < top_k ->
  encode [question] <> None ->
  exists results, ask question top_k st = (Ok results, st) /\
    List.length results = List.length (chunks st).
Proof.
  intros Hinv Hne Hk Henc. unfold query.
  unfold bind at 1, gets at 1. unfold bind at 1, gets at 1.
  destruct (index st) as [ix|] eqn:Eix.
  2:{ apply (inv_index_absent st Hinv) in Eix. contradiction. }
  pose proof (inv_index_size st Hinv ix Eix) as Hsize.
  destruct (chunks st) as [|c cs] eqn:Ecs; [contradiction|].
  unfold bind at 1, lift at 1. unfold retrieve, create_embeddings.
  destruct (encode [question]) as [qe|] eqn:Eq; [|contradiction].
  cbn [obind]. apply encode_length in Eq.
  rewrite Z.min_r by lia.
  destruct (search_full ix (map normalize_L2 qe) (PyList.len (c :: cs)))
    as (hits & -> & Hlen & Hlab).
  { destruct qe; [discriminate Eq | discriminate]. }
  { unfold PyList.len in *. rewrite Hsize. cbn [List.length]. lia. }
  destruct (collect_results_ok (c :: cs) hits) as (rs & -> & Hrs & Hin).
  { eapply Forall_impl; [|exact Hlab]. unfold PyList.len. intros h.
    rewrite Hsize. trivial. }
  rewrite <- Ecs in Hin.
  destruct (map_m_attach_ok st rs Hinv Hin) as (rs' & -> & Hrs').
  exists rs'. split; [reflexivity|].
  rewrite Hrs', Hrs, Hlen. unfold PyList.len. now rewrite Nat2Z.id.
Qed.

End ProviderContract.

End PipelineFacts.

(** ** The concrete provider and index meet the contracts *)

Module DemoFacts.

Lemma encode_length texts embeddings :
  Demo.encode texts = Some embeddings ->
  List.length embeddings = List.length texts.
Proof. intros [= <-]. apply length_map. Qed.

Lemma insert_hit_length h l :
  List.length (Demo.insert_hit h l) = S (List.length l).
Proof.
  induction l as [|h' l IH]; cbn; [reflexivity|].
  destruct (fst h' <=? fst h); cbn; [reflexivity | now rewrite IH].
Qed.

Lemma insert_hit_forall (P : Z * Z -> Prop) h l :
  P h -> Forall P l -> Forall P (Demo.insert_hit h l).
Proof.
  intros Hh. induction 1 as [|h' l Hh' Hl IH]; cbn.
  - now repeat constructor.
  - destruct (fst h' <=? fst h); repeat constructor; assumption.
Qed.

Lemma enumerate_from_labels {A} (l : list A) : forall i,
  Forall (fun p => i <= fst p < i + PyList.len l) (PyList.enumerate_from i l).
Proof.
  unfold PyList.len. induction l as [|x l IH]; intros i; cbn.
  - constructor.
  - constructor; [cbn; lia|].
    eapply Forall_impl; [|apply IH]. cbn. intros p Hp. lia.
Qed.

Lemma enumerate_from_length {A} (l : list A) : forall i,
  List.length (PyList.enumerate_from i l) = List.length l.
Proof. induction l as [|x l IH]; intros i; cbn; [|rewrite IH]; reflexivity. Qed.

Lemma ranked_length q ix : List.length (Demo.ranked q ix) = List.length ix.
Proof.
  unfold Demo.ranked, PyList.enumerate.
  rewrite <- (enumerate_from_length ix 0).
  induction (PyList.enumerate_from 0 ix) as [|p l IH]; cbn; [reflexivity|].
  now rewrite insert_hit_length, IH.
Qed.

Lemma ranked_labels q ix :
  Forall (fun h => 0 <= snd h < PyList.len ix) (Demo.ranked q ix).
Proof.
  unfold Demo.ranked, PyList.enumerate.
  pose proof (enumerate_from_labels ix 0) as H.
  induction H as [|[i v] l Hp _ IH]; cbn; [constructor|].
  apply insert_hit_forall; [cbn in *; lia | exact IH].
Qed.

Lemma search_full ix queries k :
  queries <> [] -> 0 < k <= PyList.len ix ->
  exists hits, Demo.index_search ix queries k = Some hits /\
    List.length hits = Z.to_nat k /\
    Forall (fun h => 0 <= snd h < PyList.len ix) hits.
Proof.
  intros Hq Hk. unfold Demo.index_search.
  destruct queries as [|q qs]; [contradiction|].
  destruct (k <=? 0) eqn:E; [apply Z.leb_le in E; lia|].
  eexists. split; [reflexivity|].
  assert (Hle : (Z.to_nat k <= List.length (Demo.ranked q ix))%nat).
  { rewrite ranked_length. unfold PyList.len in Hk. lia. }
  rewrite firstn_app.
  replace (Z.to_nat k - List.length (Demo.ranked q ix))%nat with 0%nat by lia.
  cbn [firstn]. rewrite app_nil_r. split.
  - rewrite length_firstn. lia.
  - pose proof (ranked_labels q ix) as H.
    rewrite <- (firstn_skipn (Z.to_nat k) (Demo.ranked q ix)) in H.
    now apply Forall_app in H.
Qed.

End DemoFacts.

(** Two scans that never end: one that stays at [start = 0], one that
    alternates between [start = 0] and [start = -1]. *)
Lemma chunk_loop_abc fuel : forall acc, chunk_loop fuel "abc" 1 1 0 acc = None.
Proof.
  induction fuel as [|fuel IH]; intros acc; [reflexivity|].
  cbn [chunk_loop].
  change (0 <? PyStr.len "abc") with true. cbv iota.
  change (window_end "abc" 1 0) with 1. cbv zeta.
  change (1 - 1) with 0. apply IH.
Qed.

Lemma chunk_loop_cycle fuel : forall acc,
  chunk_loop fuel "abcdef. ghijklmnop" 10 9 0 acc = None.
Proof.
  induction fuel as [fuel IH] using lt_wf_ind. intros acc.
  destruct fuel as [|[|fuel]]; [reflexivity | reflexivity |].
  cbn [chunk_loop].
  change (0 <? PyStr.len "abcdef. ghijklmnop") with true. cbv iota.
  change (window_end "abcdef. ghijklmnop" 10 0) with 8. cbv zeta.
  change (8 - 9) with (-1).
  change (-1 <? PyStr.len "abcdef. ghijklmnop") with true. cbv iota.
  change (window_end "abcdef. ghijklmnop" 10 (-1)) with 9.
  change (9 - 9) with 0.
  apply IH. lia.
Qed.

(** * Properties of the specification *)

(** ** Chunker *)

(** C3, as the code has it. [chunk_text] checks nothing and raises nothing.
    When [chunk_size > 0], [0 <= overlap < chunk_size] and moreover
    [overlap <= chunk_size // 2 + 2] (the defaults 500 and 50 are such),
    every round of the window scan moves [start] strictly forward and the
    call returns: any fuel above [len(text)] gives the same chunk list. *)
Theorem chunk_text_terminates_small_overlap text chunk_size overlap :
  0 < chunk_size -> 0 <= overlap < chunk_size ->
  overlap <= chunk_size / 2 + 2 ->
  (forall start, start < window_end text chunk_size start - overlap) /\
  exists chunks, forall fuel,
    (String.length text < fuel)%nat ->
    chunk_text fuel text chunk_size overlap = Some chunks.
Proof.
  intros Hcs [_ Hov] Hmid. split.
  - intros start. now apply window_end_advance.
  - destruct (chunk_text_terminates text chunk_size overlap Hcs Hov Hmid)
      as [r Hr].
    exists r. intros fuel Hf.
    eapply chunk_text_fuel_mono; [exact Hr | lia].
Qed.

Lemma chunk_text_terminates_small_overlap_witness :
  (forall start,
     start < window_end "The sky is blue. Water is wet." 15 start - 3) /\
  exists chunks, forall fuel,
    (String.length "The sky is blue. Water is wet." < fuel)%nat ->
    chunk_text fuel "The sky is blue. Water is wet." 15 3 = Some chunks.
Proof.
  apply (chunk_text_terminates_small_overlap
           "The sky is blue. Water is wet." 15 3); [lia | lia |].
  vm_compute. discriminate.
Defined.

(** C3 fails as stated: with [overlap >= chunk_size] the call neither
    raises nor returns, and with [overlap < chunk_size] alone a round can
    move [start] backwards and the call still never returns. *)
Lemma chunk_text_loops_forever :
  (~ exists fuel chunks, chunk_text fuel "abc" 1 1 = Some chunks) /\
  (0 < 10 /\ 0 <= 9 < 10 /\
   window_end "abcdef. ghijklmnop" 10 0 - 9 = -1 /\
   ~ exists fuel chunks,
       chunk_text fuel "abcdef. ghijklmnop" 10 9 = Some chunks).
Proof.
  split; [|repeat split; try lia].
  - intros (fuel & r & H).
    change (chunk_loop fuel "abc" 1 1 0 [] = Some r) in H.
    now rewrite chunk_loop_abc in H.
  - intros (fuel & r & H).
    change (chunk_loop fuel "abcdef. ghijklmnop" 10 9 0 [] = Some r) in H.
    now rewrite chunk_loop_cycle in H.
Qed.

(** C4, on the failing input: a text no longer than [chunk_size] is
    returned as it is, not trimmed, and a text of blanks is kept although
    it is empty once trimmed. *)
Theorem chunk_text_short_text_not_stripped :
  forall fuel,
    chunk_text fuel " a " 500 50 = Some [" a "] /\
    PyStr.strip " a " = "a" /\
    chunk_text fuel "   " 500 50 = Some ["   "] /\
    PyStr.strip "   " = "".
Proof. intros fuel. repeat split. Qed.

(** C6, as the code has it. For a window that ends before the end of the
    text, the separators are tried in the order [". "], [".\n"], ["! "],
    ["? "], ["\n\n"]; the first one whose last occurrence in the window is
    at a position greater than [chunk_size // 2] ends the chunk, just
    after that occurrence. The chunk is cut at the raw window size when no
    separator occurs past the midpoint, and also when the window reaches
    the end of the text. *)
Theorem window_end_first_separator text chunk_size start :
  0 < chunk_size ->
  let w := PyStr.slice text start (start + chunk_size) in
  (start + chunk_size < PyStr.len text ->
   (exists pre sep post p,
      separators = pre ++ sep :: post /\
      (forall s' q, In s' pre -> PyStr.occurs_at w s' q = true ->
                    q <= chunk_size / 2) /\
      PyStr.occurs_at w sep p = true /\ chunk_size / 2 < p /\
      (forall q, PyStr.occurs_at w sep q = true -> q <= p) /\
      window_end text chunk_size start = start + p + 2)
   \/
   ((forall sep q, In sep separators -> PyStr.occurs_at w sep q = true ->
                   q <= chunk_size / 2) /\
    window_end text chunk_size start = start + chunk_size))
  /\
  (PyStr.len text <= start + chunk_size ->
   window_end text chunk_size start = start + chunk_size).
Proof.
  intros Hcs w. unfold window_end. fold w. split; intros Hlen.
  - apply Z.ltb_lt in Hlen. rewrite Hlen.
    destruct (sentence_end separators w chunk_size start) as [e|] eqn:E.
    + left. apply sentence_end_some in E.
      destruct E as (pre & sep & post & Hs & Hpre & Hgt & ->).
      exists pre, sep, post, (PyStr.rfind w sep).
      assert (0 <= chunk_size / 2) by (apply Z.div_pos; lia).
      repeat split.
      * exact Hs.
      * intros s' q Hin Hocc. apply PyStrFacts.rfind_last in Hocc.
        specialize (Hpre s' Hin). lia.
      * apply PyStrFacts.rfind_occurs. lia.
      * exact Hgt.
      * intros q. apply PyStrFacts.rfind_last.
      * rewrite (separators_len sep); [reflexivity|].
        rewrite Hs. apply in_or_app. right. now left.
    + right. split; [|reflexivity].
      intros sep q Hin Hocc. apply PyStrFacts.rfind_last in Hocc.
      pose proof (sentence_end_none _ _ _ _ E sep Hin). lia.
  - apply Z.ltb_ge in Hlen. now rewrite Hlen.
Qed.

Lemma window_end_first_separator_witness :
  let text := "abcdefgh. i! jklmnopq" in
  let w := PyStr.slice text 0 14 in
  (exists pre sep post p,
      separators = pre ++ sep :: post /\
      (forall s' q, In s' pre -> PyStr.occurs_at w s' q = true ->
                    q <= 14 / 2) /\
      PyStr.occurs_at w sep p = true /\ 14 / 2 < p /\
      (forall q, PyStr.occurs_at w sep q = true -> q <= p) /\
      window_end text 14 0 = 0 + p + 2)
   \/
   ((forall sep q, In sep separators -> PyStr.occurs_at w sep q = true ->
                   q <= 14 / 2) /\
    window_end text 14 0 = 0 + 14).
Proof.
  apply (window_end_first_separator "abcdefgh. i! jklmnopq" 14 0);
    [lia | vm_compute; reflexivity].
Defined.

(** C6 fails as stated: in the window below the last separator past the
    midpoint is ["! "] at position 11, and the chunk ends after [". "] at
    position 8. *)
Lemma window_end_not_last_marker :
  let text := "abcdefgh. i! jklmnopq" in
  let w := PyStr.slice text 0 14 in
  14 < PyStr.len text /\
  In "! " separators /\ PyStr.occurs_at w "! " 11 = true /\ 14 / 2 < 11 /\
  (forall sep q, In sep separators -> PyStr.occurs_at w sep q = true ->
                 q <= 11) /\
  window_end text 14 0 = 10 /\
  chunk_text 22 text 14 3 = Some ["abcdefgh."; "h. i! jklmnopq"; "opq"].
Proof.
  cbv zeta. repeat split; try reflexivity.
  - cbn. tauto.
  - intros sep q Hin Hocc. apply PyStrFacts.rfind_last in Hocc.
    cbn in Hin.
    destruct Hin as [<- | [<- | [<- | [<- | [<- | []]]]]];
      match type of Hocc with
      | _ <= ?r => let v := eval vm_compute in r in change r with v in Hocc
      end; lia.
Qed.

(** ** Corpus *)

Section CorpusProperties.

Variables vec score : Type.
Variable encode : list string -> option (list vec).
Variable normalize_L2 : vec -> vec.
Variable index_search : list vec -> list vec -> Z -> option (list (score * Z)).

Local Abbreviation state := (pipeline vec).

(** What the attribution loop attaches: the filename of the owner of the
    first chunk whose text equals the text of the result. *)
Lemma attach_source_first_match r r' (st st' : state) :
  attach_source vec score r st = (Ok r', st') ->
  exists chunk_idx doc_idx doc,
    PyList.index_of (res_text r) (chunks st) = Some chunk_idx /\
    PyList.getitem (chunk_sources st) chunk_idx = Some doc_idx /\
    PyList.getitem (documents st) doc_idx = Some doc /\
    r' = Result (res_text r) (res_score r) (Some (doc_filename doc)).
Proof.
  unfold attach_source, bind, gets, lift, ret.
  destruct (PyList.index_of _ _) as [ci|] eqn:Eci; [|discriminate].
  destruct (PyList.getitem _ ci) as [di|] eqn:Edi; [|discriminate].
  destruct (PyList.getitem _ di) as [d|] eqn:Ed; [|discriminate].
  intros [= <- _]. exists ci, di, d. repeat split; assumption.
Qed.

(** C2, as the code has it. When the provider raises during the rebuild,
    the call raises, the document list keeps the change (the new document
    appended, the removed one gone), the chunk list and the owners are
    those of the changed document list, and the index is the one from
    before the call. *)
Theorem provider_failure_state i f t x id (st : state) :
  (let docs := documents st ++ [Document i f t x] in
   all_chunks docs <> [] -> encode (all_chunks docs) = None ->
   add_document vec encode normalize_L2 i f t x st
   = (Raise ProviderError,
      Pipeline docs (all_chunks docs) (all_sources docs) (index st)))
  /\
  (let docs := keep_others id (documents st) in
   (List.length docs < List.length (documents st))%nat ->
   all_chunks docs <> [] -> encode (all_chunks docs) = None ->
   remove_document vec encode normalize_L2 id st
   = (Raise ProviderError,
      Pipeline docs (all_chunks docs) (all_sources docs) (index st))).
Proof.
  split; cbv zeta.
  - intros Hne Henc. rewrite add_document_spec, rebuild_spec.
    cbn [documents set_documents index]. cbv zeta.
    destruct (all_chunks _) as [|c cs]; [contradiction|].
    now rewrite Henc.
  - intros Hlt Hne Henc. rewrite remove_document_spec.
    replace (_ <? _) with true
      by (symmetry; apply Z.ltb_lt; unfold PyList.len; lia).
    rewrite rebuild_spec. cbn [documents set_documents index]. cbv zeta.
    destruct (all_chunks _) as [|c cs]; [contradiction|].
    now rewrite Henc.
Qed.

(** C9. On a new pipeline, [add_document] followed by [remove_document]
    of the same id returns [True] and leaves the state of a new pipeline:
    no documents, no chunks, no owners, no index. *)
Theorem add_then_remove_is_init i f t x :
  remove_document vec encode normalize_L2 i
    (snd (add_document vec encode normalize_L2 i f t x (init vec)))
  = (Ok true, init vec).
Proof.
  rewrite add_document_spec, rebuild_spec. cbn [documents set_documents init].
  cbv zeta. cbn [app].
  assert (Hkeep : keep_others i [Document i f t x] = []).
  { unfold keep_others. cbn. now rewrite String.eqb_refl. }
  assert (Hrm : forall cs ss ix,
    remove_document vec encode normalize_L2 i
      (Pipeline [Document i f t x] cs ss ix)
    = (Ok true, init vec)).
  { intros cs ss ix. rewrite remove_document_spec.
    cbn [documents set_documents]. rewrite Hkeep.
    change (PyList.len [] <? PyList.len [Document i f t x]) with true.
    cbv iota. rewrite rebuild_spec. reflexivity. }
  destruct (all_chunks _) as [|c cs]; [apply Hrm|].
  destruct (encode (c :: cs)); apply Hrm.
Qed.

(** C10. [query] leaves the documents, the chunks, the owners and the
    index as they were, whether it returns or raises. *)
Theorem query_read_only question top_k (st : state) :
  let st' := snd (query vec score encode normalize_L2 index_search
                    question top_k st) in
  documents st' = documents st /\ chunks st' = chunks st /\
  chunk_sources st' = chunk_sources st /\ index st' = index st /\
  st' = st.
Proof.
  cbv zeta. rewrite query_frame. repeat split.
Qed.

(** C7, as the code has it. On a pipeline without chunks [query] returns
    the empty list for every question and every [top_k]. On a pipeline
    that holds [n > 0] chunks and is consistent (its index holds the same
    [n] vectors, as after every [add_document] and [remove_document] that
    returned), a [query] with [top_k > n] returns exactly [n] results,
    given that the provider embeds the question and returns one vector
    per text, and that the index fills every slot with a valid label when
    asked for no more vectors than it holds. *)
Theorem query_result_count question top_k (st : state) :
  (forall texts embeddings, encode texts = Some embeddings ->
     List.length embeddings = List.length texts) ->
  (forall ix queries k, queries <> [] -> 0 < k <= PyList.len ix ->
     exists hits, index_search ix queries k = Some hits /\
       List.length hits = Z.to_nat k /\
       Forall (fun h => 0 <= snd h < PyList.len ix) hits) ->
  (chunks st = [] ->
   query vec score encode normalize_L2 index_search question top_k st
   = (Ok [], st)) /\
  (corpus_inv st -> chunks st <> [] ->
   PyList.len (chunks st) < top_k ->
   encode [question] <> None ->
   exists results,
     query vec score encode normalize_L2 index_search question top_k st
     = (Ok results, st) /\
     List.length results = List.length (chunks st)).
Proof.
  intros Hlen Hsearch. split.
  - apply query_empty.
  - now apply query_all.
Qed.

(** C5, as the code has it. From a new pipeline, as long as every call so
    far has returned (none raised), and the provider returns one vector
    per text: the index holds as many vectors as there are chunks and is
    absent iff there are no chunks; every chunk's owner is a document of
    the pipeline; the chunks, and their owners, are the documents' chunk
    sequences one after the other in document order. *)
Theorem completed_run_invariants (st : state) :
  (forall texts embeddings, encode texts = Some embeddings ->
     List.length embeddings = List.length texts) ->
  completed_run vec score encode normalize_L2 index_search st ->
  corpus_inv st.
Proof. intros Hlen Hrun. eapply completed_inv; eassumption. Qed.

End CorpusProperties.

(** ** The properties on the concrete sessions *)

Lemma two_docs_inv : corpus_inv Demo.two_docs.
Proof.
  constructor.
  - intros ix [= <-]. reflexivity.
  - split; discriminate.
  - reflexivity.
  - repeat constructor; eexists; (split; [|reflexivity]); lia.
  - reflexivity.
  - reflexivity.
Qed.

(** C1, on the failing input. Two documents hold the same text; the
    search returns a hit at position 0 and a hit at position 1; the chunk
    at position 1 belongs to [b.txt], and both results carry [a.txt]. *)
Theorem query_attributes_duplicate_to_first_document :
  let st := Demo.same_text_docs in
  chunks st = ["Hello"; "Hello"] /\
  chunk_sources st = [0; 1] /\
  map doc_filename (documents st) = ["a.txt"; "b.txt"] /\
  index st = Some [5; 5] /\
  Demo.index_search [5; 5] [2] 2 = Some [(10, 0); (10, 1)] /\
  Demo.query "Hi" 2 st
  = (Ok [Result "Hello" 10 (Some "a.txt"); Result "Hello" 10 (Some "a.txt")],
     st).
Proof. repeat split. Qed.

(** C2 fails as stated: the second upload raises in the rebuild and
    leaves two documents and two chunks beside the index of the first. *)
Lemma failed_add_changes_state :
  let st := snd (Demo.flaky_add "a" "a.txt" "txt" "Hello" (init Z)) in
  let r := Demo.flaky_add "b" "b.txt" "txt" "Hello world" st in
  st = Pipeline [Document "a" "a.txt" "txt" "Hello"] ["Hello"] [0] (Some [5])
  /\ fst r = Raise ProviderError
  /\ snd r = Pipeline [Document "a" "a.txt" "txt" "Hello";
                       Document "b" "b.txt" "txt" "Hello world"]
                      ["Hello"; "Hello world"] [0; 1] (Some [5])
  /\ snd r <> st.
Proof. repeat split. discriminate. Qed.

Lemma provider_failure_state_witness :
  Demo.flaky_add "b" "b.txt" "txt" "Hello world"
    (Pipeline [Document "a" "a.txt" "txt" "Hello"] ["Hello"] [0] (Some [5]))
  = (Raise ProviderError,
     Pipeline [Document "a" "a.txt" "txt" "Hello";
               Document "b" "b.txt" "txt" "Hello world"]
              ["Hello"; "Hello world"] [0; 1] (Some [5]))
  /\
  remove_document Z Demo.flaky_encode Demo.normalize_L2 "c"
    (Pipeline [Document "a" "a.txt" "txt" "Hello";
               Document "b" "b.txt" "txt" "Hello world";
               Document "c" "c.txt" "txt" "Bye"]
              ["Hello"; "Hello world"; "Bye"] [0; 1; 2] (Some [5; 11; 3]))
  = (Raise ProviderError,
     Pipeline [Document "a" "a.txt" "txt" "Hello";
               Document "b" "b.txt" "txt" "Hello world"]
              ["Hello"; "Hello world"] [0; 1] (Some [5; 11; 3])).
Proof.
  split.
  - apply (proj1 (provider_failure_state Z Demo.flaky_encode
             Demo.normalize_L2 "b" "b.txt" "txt" "Hello world" "c"
             (Pipeline [Document "a" "a.txt" "txt" "Hello"] ["Hello"] [0]
                (Some [5])))).
    + discriminate.
    + reflexivity.
  - apply (proj2 (provider_failure_state Z Demo.flaky_encode
             Demo.normalize_L2 "b" "b.txt" "txt" "Hello world" "c"
             (Pipeline [Document "a" "a.txt" "txt" "Hello";
                        Document "b" "b.txt" "txt" "Hello world";
                        Document "c" "c.txt" "txt" "Bye"]
                ["Hello"; "Hello world"; "Bye"] [0; 1; 2]
                (Some [5; 11; 3])))).
    + cbn. lia.
    + discriminate.
    + reflexivity.
Defined.

(** C5 fails as stated: after the upload that raised, [get_documents]
    returns, and the pipeline then holds two chunks beside an index of
    one vector. *)
Lemma invariant_broken_after_failed_add :
  let st := Demo.after_failed_add in
  get_documents Z st
  = (Ok [("a", "a.txt", "txt"); ("b", "b.txt", "txt")], st) /\
  chunks st = ["Hello"; "Hello world"] /\
  chunk_sources st = [0; 1] /\
  index st = Some [5] /\
  ~ corpus_inv st.
Proof.
  repeat split. intros [Hsize _ _ _ _ _].
  specialize (Hsize [5] eq_refl). discriminate.
Qed.

(** C7 fails as stated: after the upload that raised, the pipeline holds
    two chunks and a [query] with [top_k = 3] returns one result. *)
Lemma query_count_after_failed_add :
  let st := Demo.after_failed_add in
  chunks st = ["Hello"; "Hello world"] /\
  PyList.len (chunks st) < 3 /\
  Demo.flaky_query "Hi" 3 st = (Ok [Result "Hello" 10 (Some "a.txt")], st).
Proof. repeat split. Qed.

Lemma completed_run_invariants_witness : corpus_inv Demo.two_docs.
Proof.
  apply (completed_run_invariants Z Z Demo.encode Demo.normalize_L2
           Demo.index_search Demo.two_docs DemoFacts.encode_length).
  apply (run_step Z Z Demo.encode Demo.normalize_L2 Demo.index_search
           (snd (Demo.add_document "a" "a.txt" "txt" "Hello" (init Z)))
           (AddDocument "b" "b.txt" "txt" "Hello world")).
  - apply (run_step Z Z Demo.encode Demo.normalize_L2 Demo.index_search
             (init Z) (AddDocument "a" "a.txt" "txt" "Hello")).
    + apply run_init.
    + reflexivity.
  - reflexivity.
Defined.

Lemma query_result_count_witness :
  Demo.query "Hi" 5 (init Z) = (Ok [], init Z) /\
  exists results,
    Demo.query "Hi" 5 Demo.two_docs = (Ok results, Demo.two_docs) /\
    List.length results = List.length (chunks Demo.two_docs).
Proof.
  split.
  - apply (proj1 (query_result_count Z Z Demo.encode Demo.normalize_L2
             Demo.index_search "Hi" 5 (init Z)
             DemoFacts.encode_length DemoFacts.search_full)).
    reflexivity.
  - apply (proj2 (query_result_count Z Z Demo.encode Demo.normalize_L2
             Demo.index_search "Hi" 5 Demo.two_docs
             DemoFacts.encode_length DemoFacts.search_full)).
    + exact two_docs_inv.
    + discriminate.
    + reflexivity.
    + discriminate.
Defined.

(** * Further properties of the chunker *)

Module PyStrMore.
Import PyStr.

Lemma take_length n s : (String.length (take n s) <= n)%nat.
Proof.
  revert s. induction n as [|n IH]; intros [|c s]; cbn; try lia.
  specialize (IH s). lia.
Qed.

Lemma lstrip_length s : (String.length (lstrip s) <= String.length s)%nat.
Proof.
  induction s as [|c s IH]; cbn; [lia|].
  destruct (is_space c); cbn; lia.
Qed.

Lemma rstrip_length s : (String.length (rstrip s) <= String.length s)%nat.
Proof.
  induction s as [|c s IH]; cbn; [lia|].
  destruct (rstrip s); [destruct (is_space c)|]; cbn in *; lia.
Qed.

Lemma strip_length s : (String.length (strip s) <= String.length s)%nat.
Proof.
  unfold strip. pose proof (rstrip_length (lstrip s)).
  pose proof (lstrip_length s). lia.
Qed.

(** A slice is no longer than the distance between its bounds, unless the
    start is counted from the front and the end from the back. *)
Lemma slice_length s i j :
  (0 <= i -> 0 <= j) -> len (slice s i j) <= Z.max 0 (j - i).
Proof.
  intros Hij. unfold slice, len.
  pose proof (take_length
    (Z.to_nat (clamp (Z.of_nat (String.length s)) j
               - clamp (Z.of_nat (String.length s)) i))
    (drop (Z.to_nat (clamp (Z.of_nat (String.length s)) i)) s)) as H.
  revert H. unfold clamp. cbv zeta.
  destruct (Z.ltb_spec i 0), (Z.ltb_spec j 0);
  repeat match goal with
  | |- context [?a <? ?b] => destruct (Z.ltb_spec a b)
  end; lia.
Qed.

Lemma startswith_length p s :
  startswith p s = true -> (String.length p <= String.length s)%nat.
Proof.
  revert s. induction p as [|a p IH]; intros [|b s]; cbn; try lia;
    try discriminate.
  intros H. apply andb_prop in H. destruct H as [_ H].
  specialize (IH s H). lia.
Qed.

Lemma drop_length n s :
  (n <= String.length s)%nat ->
  String.length (drop n s) = (String.length s - n)%nat.
Proof.
  revert s. induction n as [|n IH]; intros [|c s]; cbn; try lia.
  intros H. apply IH. lia.
Qed.

(** An occurrence found by [rfind] lies inside the string. *)
Lemma rfind_fits s sep :
  0 <= rfind s sep -> rfind s sep + len sep <= len s.
Proof.
  unfold rfind, len.
  destruct (PyStrFacts.rfind_from_spec sep s 0 (-1))
    as [[-> _] | (n & Hn & -> & Hocc & _)]; [lia|].
  intros _. apply startswith_length in Hocc.
  rewrite drop_length in Hocc by exact Hn. lia.
Qed.

(** *** Trimming *)

Lemma rstrip_cons c s :
  rstrip (String c s)
  = match rstrip s with
    | "" => if is_space c then "" else String c ""
    | r => String c r
    end.
Proof. reflexivity. Qed.

Lemma rstrip_idem s : rstrip (rstrip s) = rstrip s.
Proof.
  induction s as [|c s IH]; [reflexivity|]. rewrite rstrip_cons.
  destruct (rstrip s) as [|d r] eqn:E.
  - destruct (is_space c) eqn:Ec; [reflexivity|].
    rewrite rstrip_cons. cbn [rstrip]. now rewrite Ec.
  - rewrite rstrip_cons, IH. reflexivity.
Qed.

(** Trimming on the right keeps a first character that is no blank. *)
Lemma rstrip_head c s :
  is_space c = false -> exists r, rstrip (String c s) = String c r.
Proof.
  intros Hc. cbn [rstrip]. destruct (rstrip s); [rewrite Hc|]; eauto.
Qed.

Lemma lstrip_head s :
  lstrip s = "" \/ exists c r, lstrip s = String c r /\ is_space c = false.
Proof.
  induction s as [|c s IH]; [now left|]. cbn [lstrip].
  destruct (is_space c) eqn:Ec; [exact IH|]. right. eauto.
Qed.

Lemma strip_idem s : strip (strip s) = strip s.
Proof.
  unfold strip. destruct (lstrip_head s) as [-> | (c & r & -> & Hc)].
  - reflexivity.
  - destruct (rstrip_head c r Hc) as [r' Hr]. rewrite Hr.
    cbn [lstrip]. rewrite Hc, <- Hr. apply rstrip_idem.
Qed.

(** *** Parts of a string *)

Lemma take_drop n s : (take n s ++ drop n s)%string = s.
Proof.
  revert s. induction n as [|n IH]; intros [|c s]; cbn; try reflexivity.
  now rewrite IH.
Qed.

Lemma string_app_assoc (a b c : string) :
  ((a ++ b) ++ c = a ++ b ++ c)%string.
Proof. induction a as [|x a IH]; cbn; [reflexivity | now rewrite IH]. Qed.

Lemma string_app_empty_r (a : string) : (a ++ "")%string = a.
Proof. induction a as [|x a IH]; cbn; [reflexivity | now rewrite IH]. Qed.

Lemma lstrip_suffix s : exists pre, s = (pre ++ lstrip s)%string.
Proof.
  induction s as [|c s [pre IH]]; [now exists ""|]. cbn [lstrip].
  destruct (is_space c).
  - exists (String c pre). cbn. now rewrite <- IH.
  - now exists "".
Qed.

Lemma rstrip_prefix s : exists post, s = (rstrip s ++ post)%string.
Proof.
  induction s as [|c s [post IH]]; [now exists ""|]. cbn [rstrip].
  destruct (rstrip s) as [|d r] eqn:E.
  - destruct (is_space c).
    + now exists (String c s).
    + exists s. reflexivity.
  - exists post. cbn. cbn in IH. now rewrite <- IH.
Qed.

Lemma substring_refl t : is_substring t t.
Proof. exists "", "". cbn. now rewrite string_app_empty_r. Qed.

Lemma substring_trans a b c :
  is_substring a b -> is_substring b c -> is_substring a c.
Proof.
  intros (p1 & q1 & ->) (p2 & q2 & ->).
  exists (p2 ++ p1)%string, (q1 ++ q2)%string.
  now rewrite !string_app_assoc.
Qed.

Lemma strip_substring s : is_substring (strip s) s.
Proof.
  unfold strip. destruct (lstrip_suffix s) as [pre Hpre].
  destruct (rstrip_prefix (lstrip s)) as [post Hpost].
  exists pre, post. now rewrite <- Hpost.
Qed.

Lemma slice_substring s i j : is_substring (slice s i j) s.
Proof.
  unfold slice.
  set (lo := Z.to_nat (clamp (len s) i)).
  set (n := Z.to_nat (clamp (len s) j - clamp (len s) i)).
  exists (take lo s), (drop n (drop lo s)).
  now rewrite take_drop, take_drop.
Qed.

End PyStrMore.

(** The end of a window lies after its start, at most [chunk_size]
    further. *)
Lemma window_end_bounds text cs start :
  0 < cs ->
  start < window_end text cs start <= start + cs.
Proof.
  intros Hcs. unfold window_end.
  destruct (start + cs <? PyStr.len text); [|lia].
  destruct (sentence_end separators _ cs start) as [e|] eqn:E; [|lia].
  apply sentence_end_some in E.
  destruct E as (pre & sep & post & _ & _ & Hgt & ->).
  assert (0 <= cs / 2) by (apply Z.div_pos; lia).
  pose proof (PyStrMore.rfind_fits
                (PyStr.slice text start (start + cs)) sep) as Hfit.
  pose proof (PyStrMore.slice_length text start (start + cs)) as Hlen.
  unfold PyStr.len in *. lia.
Qed.

(** What holds of every chunk the loop cuts holds of the whole result. *)
Lemma chunk_loop_forall (P : string -> Prop) text cs ov :
  (forall start,
     let c := PyStr.strip
                (PyStr.slice text start (window_end text cs start)) in
     PyStr.truthy c = true -> P c) ->
  forall fuel start acc r,
    Forall P acc ->
    chunk_loop fuel text cs ov start acc = Some r -> Forall P r.
Proof.
  intros Hcut. induction fuel as [|fuel IH]; intros start acc r Hacc;
    [discriminate|].
  cbn [chunk_loop]. destruct (start <? PyStr.len text).
  - apply IH. specialize (Hcut start). cbv zeta in Hcut.
    destruct (PyStr.truthy _); [|exact Hacc].
    apply Forall_app. split; [exact Hacc|]. constructor; [|constructor].
    now apply Hcut.
  - now intros [= <-].
Qed.

(** Every chunk, on either path of [chunk_text], has a property that the
    whole text has when it is short and every cut has otherwise. *)
Lemma chunk_text_forall (P : string -> Prop) fuel text cs ov chunks :
  (PyStr.truthy text = true -> PyStr.len text <= cs -> P text) ->
  (cs < PyStr.len text -> forall start,
     let c := PyStr.strip
                (PyStr.slice text start (window_end text cs start)) in
     PyStr.truthy c = true -> P c) ->
  chunk_text fuel text cs ov = Some chunks -> Forall P chunks.
Proof.
  intros Hshort Hcut. unfold chunk_text.
  destruct (PyStr.truthy text) eqn:Et; cbn [negb orb].
  - destruct (Z.leb_spec (PyStr.len text) cs) as [Hle|Hgt].
    + intros [= <-]. constructor; [now apply Hshort | constructor].
    + apply chunk_loop_forall; [now apply Hcut | constructor].
  - intros [= <-]. constructor.
Qed.

Lemma truthy_nonempty s : PyStr.truthy s = true -> s <> "".
Proof. destruct s; [discriminate | discriminate]. Qed.

(** X1. Every chunk that [chunk_text] returns is a non-empty contiguous
    part of the text, for every chunk size and overlap. *)
Theorem chunk_text_chunks_are_parts fuel text chunk_size overlap chunks :
  chunk_text fuel text chunk_size overlap = Some chunks ->
  Forall (fun c => c <> "" /\ is_substring c text) chunks.
Proof.
  apply chunk_text_forall.
  - intros Ht _. split; [now apply truthy_nonempty|].
    apply PyStrMore.substring_refl.
  - intros _ start c Hc. split; [now apply truthy_nonempty|].
    eapply PyStrMore.substring_trans;
      [apply PyStrMore.strip_substring | apply PyStrMore.slice_substring].
Qed.

Lemma chunk_text_chunks_are_parts_witness :
  Forall (fun c => c <> "" /\
                   is_substring c "The sky is blue. Water is wet.")
    ["The sky is blue"; "lue. Water is w"; "s wet."].
Proof.
  apply (chunk_text_chunks_are_parts 10
           "The sky is blue. Water is wet." 15 3).
  reflexivity.
Defined.

(** X2. With a positive chunk size no chunk is longer than the chunk
    size. *)
Theorem chunk_text_chunk_length fuel text chunk_size overlap chunks :
  0 < chunk_size ->
  chunk_text fuel text chunk_size overlap = Some chunks ->
  Forall (fun c => PyStr.len c <= chunk_size) chunks.
Proof.
  intros Hcs. apply chunk_text_forall.
  - intros _ Hle. exact Hle.
  - intros _ start c _. subst c.
    pose proof (window_end_bounds text chunk_size start Hcs) as Hb.
    pose proof (PyStrMore.slice_length text start
                  (window_end text chunk_size start)) as Hs.
    pose proof (PyStrMore.strip_length
                  (PyStr.slice text start
                     (window_end text chunk_size start))) as Ht.
    unfold PyStr.len in *. lia.
Qed.

Lemma chunk_text_chunk_length_witness :
  Forall (fun c => PyStr.len c <= 15)
    ["The sky is blue"; "lue. Water is w"; "s wet."].
Proof.
  apply (chunk_text_chunk_length 10
           "The sky is blue. Water is wet." 15 3); [lia | reflexivity].
Defined.

(** X3. When the text is longer than the chunk size, every chunk is
    trimmed: stripping it again changes nothing. *)
Theorem chunk_text_long_text_trimmed fuel text chunk_size overlap chunks :
  chunk_size < PyStr.len text ->
  chunk_text fuel text chunk_size overlap = Some chunks ->
  Forall (fun c => PyStr.strip c = c) chunks.
Proof.
  intros Hlen. apply chunk_text_forall.
  - intros _ Hle. lia.
  - intros _ start c _. apply PyStrMore.strip_idem.
Qed.

Lemma chunk_text_long_text_trimmed_witness :
  Forall (fun c => PyStr.strip c = c)
    ["The sky is blue"; "lue. Water is w"; "s wet."].
Proof.
  apply (chunk_text_long_text_trimmed 10
           "The sky is blue. Water is wet." 15 3);
    [reflexivity | reflexivity].
Defined.

(** * Further properties of the pipeline *)

Lemma all_chunks_app a b : all_chunks (a ++ b) = all_chunks a ++ all_chunks b.
Proof. unfold all_chunks. apply flat_map_app. Qed.

Lemma keep_others_forall id docs :
  Forall (fun d => doc_id d <> id) (keep_others id docs).
Proof.
  unfold keep_others. apply Forall_forall. intros d Hd.
  apply filter_In in Hd. destruct Hd as [_ Hd].
  destruct (String.eqb_spec (doc_id d) id); [discriminate | assumption].
Qed.

Lemma keep_others_absent id docs :
  Forall (fun d => doc_id d <> id) docs -> keep_others id docs = docs.
Proof.
  unfold keep_others. induction 1 as [|d docs Hd _ IH]; cbn; [reflexivity|].
  destruct (String.eqb_spec (doc_id d) id); [contradiction|].
  cbn. now rewrite IH.
Qed.

Lemma keep_others_shorter id docs :
  (List.length (keep_others id docs) < List.length docs)%nat <->
  exists d, In d docs /\ doc_id d = id.
Proof.
  unfold keep_others. induction docs as [|d docs IH]; cbn.
  - split; [lia | intros (d & [] & _)].
  - pose proof (filter_length_le
      (fun d => negb (doc_id d =? id)%string) docs) as Hle.
    destruct (String.eqb_spec (doc_id d) id) as [Heq|Hne]; cbn.
    + split; [eauto | lia].
    + split.
      * intros H. destruct IH as [IH _].
        destruct IH as (d' & Hin & Hid); [lia | eauto].
      * intros (d' & [<- | Hin] & Hid); [contradiction|].
        destruct IH as [_ IH]. specialize (IH (ex_intro _ d' (conj Hin Hid))).
        lia.
Qed.

Lemma index_of_some_in x l i : PyList.index_of x l = Some i -> In x l.
Proof.
  revert i. induction l as [|y l IH]; intros i; cbn; [discriminate|].
  destruct (String.eqb_spec y x) as [->|_]; [now left|].
  destruct (PyList.index_of x l) as [j|]; [|discriminate].
  intros _. right. eapply IH. reflexivity.
Qed.

(** In a list without repetition [l.index(l[i])] is [i]. *)
Lemma index_of_nodup l : forall i x,
  NoDup l -> 0 <= i -> PyList.getitem l i = Some x ->
  PyList.index_of x l = Some i.
Proof.
  induction l as [|y l IH]; intros i x Hnd Hi Hget.
  - unfold PyList.getitem in Hget.
    destruct (i <? 0); [destruct (_ <? 0); [discriminate|]|];
      now destruct (Z.to_nat _) in Hget.
  - inversion Hnd as [|? ? Hnotin Hnd']; subst.
    assert (Hnth : nth_error (y :: l) (Z.to_nat i) = Some x).
    { unfold PyList.getitem in Hget.
      destruct (Z.ltb_spec i 0); [lia | exact Hget]. }
    cbn [PyList.index_of].
    destruct (Z.to_nat i) as [|n] eqn:En.
    + cbn in Hnth. injection Hnth as ->. rewrite String.eqb_refl.
      f_equal. lia.
    + cbn in Hnth.
      destruct (String.eqb_spec y x) as [->|_].
      * exfalso. apply Hnotin. eapply nth_error_In, Hnth.
      * rewrite (IH (i - 1) x Hnd'); [cbn; f_equal; lia | lia |].
        unfold PyList.getitem.
        destruct (Z.ltb_spec (i - 1) 0); [lia|].
        replace (Z.to_nat (i - 1)) with n by lia. exact Hnth.
Qed.

Section PipelineMore.

Variables vec score : Type.
Variable encode : list string -> option (list vec).
Variable normalize_L2 : vec -> vec.
Variable index_search : list vec -> list vec -> Z -> option (list (score * Z)).

Local Abbreviation state := (pipeline vec).
Local Abbreviation rebuild := (_rebuild_index vec encode normalize_L2).

(** Whatever the outcome of a rebuild, the documents stay and the chunks
    and owners are those of the documents. *)
Lemma rebuild_snd (st : state) :
  let st' := snd (rebuild st) in
  documents st' = documents st /\
  chunks st' = all_chunks (documents st) /\
  chunk_sources st' = all_sources (documents st).
Proof.
  rewrite rebuild_spec. cbv zeta.
  destruct (all_chunks (documents st)) as [|c cs] eqn:E.
  - cbn. repeat split. symmetry. apply length_zero_iff_nil.
    unfold all_sources. now rewrite sources_from_length, E.
  - destruct (encode (c :: cs)); cbn; repeat split.
Qed.

Lemma remove_document_snd id (st : state) :
  let st' := snd (remove_document vec encode normalize_L2 id st) in
  documents st' = keep_others id (documents st).
Proof.
  cbv zeta. rewrite remove_document_spec.
  destruct (_ <? _); [|reflexivity].
  pose proof (rebuild_snd (set_documents (keep_others id (documents st)) st))
    as (Hd & _). cbv zeta in Hd.
  destruct (rebuild _) as [[[]|e] st']; exact Hd.
Qed.

(** X4. [remove_document] with an id that no document has returns
    [False] and changes nothing; the provider is not called. *)
Theorem remove_document_unknown_id id (st : state) :
  (forall d, In d (documents st) -> doc_id d <> id) ->
  remove_document vec encode normalize_L2 id st = (Ok false, st).
Proof.
  intros Hno. rewrite remove_document_spec.
  rewrite keep_others_absent by now apply Forall_forall.
  rewrite Z.ltb_irrefl. now destruct st.
Qed.

(** X5. After [remove_document], whether it returned or raised, no
    document with that id is left and the other documents are the same,
    in the same order; if it returned, it returned [True] exactly when
    some document had that id. *)
Theorem remove_document_result id (st : state) :
  let r := remove_document vec encode normalize_L2 id st in
  documents (snd r)
  = filter (fun d => negb (String.eqb (doc_id d) id)) (documents st) /\
  Forall (fun d => doc_id d <> id) (documents (snd r)) /\
  (forall b, fst r = Ok b ->
     (b = true <-> exists d, In d (documents st) /\ doc_id d = id)).
Proof.
  cbv zeta. pose proof (remove_document_snd id st) as Hd. cbv zeta in Hd.
  split; [exact Hd|]. split; [rewrite Hd; apply keep_others_forall|].
  intros b. rewrite remove_document_spec.
  rewrite <- keep_others_shorter.
  destruct (Z.ltb_spec (PyList.len (keep_others id (documents st)))
              (PyList.len (documents st))) as [Hlt|Hge];
    unfold PyList.len in *.
  - destruct (rebuild _) as [[[]|e] st']; cbn; [|discriminate].
    intros [= <-]. split; [lia | reflexivity].
  - cbn. intros [= <-]. split; [discriminate | lia].
Qed.

(** X6. After [add_document], whether it returned or raised,
    [get_documents] lists what it listed before followed by the new
    document. *)
Theorem add_document_listed i f t x (st : state) :
  let st' := snd (add_document vec encode normalize_L2 i f t x st) in
  exists before,
    get_documents vec st = (Ok before, st) /\
    get_documents vec st' = (Ok (before ++ [(i, f, t)]), st').
Proof.
  cbv zeta. rewrite add_document_spec.
  pose proof (rebuild_snd
    (set_documents (documents st ++ [Document i f t x]) st)) as (Hd & _).
  cbv zeta in Hd. cbn [documents set_documents] in Hd.
  eexists. split; [reflexivity|].
  unfold get_documents, bind, gets, ret. rewrite Hd, map_app. reflexivity.
Qed.

(** X7. On a consistent pipeline [add_document], whether it returned or
    raised, leaves every earlier chunk and owner at its position and
    appends the chunks of the new text, owned by the new last position. *)
Theorem add_document_appends_chunks i f t x (st : state) :
  corpus_inv st ->
  let st' := snd (add_document vec encode normalize_L2 i f t x st) in
  chunks st' = chunks st ++ chunk_text_default x /\
  chunk_sources st'
  = chunk_sources st
    ++ repeat (PyList.len (documents st))
              (List.length (chunk_text_default x)).
Proof.
  intros Hinv. cbv zeta. rewrite add_document_spec.
  pose proof (rebuild_snd
    (set_documents (documents st ++ [Document i f t x]) st))
    as (_ & Hc & Hs).
  cbv zeta in Hc, Hs. cbn [documents set_documents] in Hc, Hs.
  rewrite Hc, Hs, (inv_chunk_order st Hinv), (inv_source_order st Hinv).
  split.
  - rewrite all_chunks_app. cbn. now rewrite app_nil_r.
  - unfold all_sources. now rewrite sources_from_app.
Qed.

(** X8. On a consistent pipeline where no document has the id,
    [add_document] followed by [remove_document] of that id restores the
    documents, the chunks and the owners, whether or not the provider
    raised on the way. *)
Theorem add_then_remove_restores i f t x (st : state) :
  corpus_inv st ->
  (forall d, In d (documents st) -> doc_id d <> i) ->
  let st' := snd (remove_document vec encode normalize_L2 i
                    (snd (add_document vec encode normalize_L2 i f t x st)))
  in
  documents st' = documents st /\ chunks st' = chunks st /\
  chunk_sources st' = chunk_sources st.
Proof.
  intros Hinv Hno. cbv zeta. rewrite add_document_spec.
  pose proof (rebuild_snd
    (set_documents (documents st ++ [Document i f t x]) st)) as (Hd & _).
  cbv zeta in Hd. cbn [documents set_documents] in Hd.
  set (st1 := snd (rebuild _)) in *.
  assert (Hkeep : keep_others i (documents st1) = documents st).
  { rewrite Hd. unfold keep_others. rewrite filter_app. cbn.
    rewrite String.eqb_refl. cbn. rewrite app_nil_r.
    apply keep_others_absent. now apply Forall_forall. }
  rewrite remove_document_spec, Hkeep.
  replace (PyList.len (documents st) <? PyList.len (documents st1)) with true.
  2:{ symmetry. apply Z.ltb_lt. rewrite Hd. unfold PyList.len.
      rewrite length_app. cbn. lia. }
  pose proof (rebuild_snd (set_documents (documents st) st1))
    as (Hd2 & Hc2 & Hs2).
  cbv zeta in Hd2, Hc2, Hs2. cbn [documents set_documents] in Hd2, Hc2, Hs2.
  rewrite (inv_chunk_order st Hinv), (inv_source_order st Hinv).
  destruct (rebuild (set_documents (documents st) st1)) as [[[]|e] st2];
    cbn [snd] in *; auto.
Qed.

End PipelineMore.

Section QueryMore.

Variables vec score : Type.
Variable encode : list string -> option (list vec).
Variable normalize_L2 : vec -> vec.
Variable index_search : list vec -> list vec -> Z -> option (list (score * Z)).

Local Abbreviation state := (pipeline vec).

(** The hits that [retrieve] turns into results: those with a label that
    is not negative. *)
Local Abbreviation kept hits :=
  (filter (fun h : score * Z => 0 <=? snd h) hits).

Lemma collect_results_inv (cs : list string) (hits : list (score * Z)) :
  forall rs, collect_results score cs hits = Ok rs ->
  Forall2 (fun h r => 0 <= snd h /\
                      PyList.getitem cs (snd h) = Some (res_text r) /\
                      res_score r = fst h /\ res_source r = None)
          (kept hits) rs.
Proof.
  induction hits as [|[sc idx] hits IH]; intros rs; cbn [collect_results].
  - intros [= <-]. constructor.
  - cbn [filter snd]. destruct (Z.leb_spec 0 idx) as [Hidx|_]; [|apply IH].
    destruct (PyList.getitem cs idx) as [t|] eqn:Et; [|discriminate].
    destruct (collect_results score cs hits) as [rs0|e]; [|discriminate].
    cbn [obind]. intros [= <-]. constructor; [|now apply IH].
    cbn. now rewrite Et.
Qed.

Lemma map_m_attach_inv (st : state) : forall rs rs' st',
  map_m rs (attach_source vec score) st = (Ok rs', st') ->
  st' = st /\
  Forall2 (fun r r' => attach_source vec score r st = (Ok r', st)) rs rs'.
Proof.
  induction rs as [|r rs IH]; intros rs' st'; cbn [map_m].
  - intros [= <- <-]. split; [reflexivity | constructor].
  - unfold bind at 1. pose proof (attach_source_frame vec score r st) as Hf.
    destruct (attach_source vec score r st) as [[r1|e] st1] eqn:Ea;
      [|discriminate].
    cbn in Hf. subst st1. unfold bind at 1.
    destruct (map_m rs (attach_source vec score) st) as [[rs1|e] st2] eqn:Em;
      [|discriminate].
    destruct (IH _ _ eq_refl) as [-> Hall].
    intros [= <- <-]. split; [reflexivity|]. now constructor.
Qed.

(** The steps of a [query] that returned a non-empty list. *)
Lemma query_inv question top_k (st st' : state) results :
  query vec score encode normalize_L2 index_search question top_k st
  = (Ok results, st') ->
  st' = st /\
  (results = [] \/
   exists ix query_embedding hits rs,
     index st = Some ix /\
     encode [question] = Some query_embedding /\
     index_search ix (map normalize_L2 query_embedding)
       (Z.min top_k (PyList.len (chunks st))) = Some hits /\
     collect_results score (chunks st) hits = Ok rs /\
     map_m rs (attach_source vec score) st = (Ok results, st)).
Proof.
  unfold query. unfold bind at 1, gets at 1. unfold bind at 1, gets at 1.
  destruct (index st) as [ix|] eqn:Eix.
  2:{ intros [= <- <-]. split; [reflexivity | now left]. }
  destruct (chunks st) as [|c cs] eqn:Ecs.
  { intros [= <- <-]. split; [reflexivity | now left]. }
  unfold bind at 1, lift at 1. unfold retrieve, create_embeddings.
  destruct (encode [question]) as [qe|] eqn:Eq; [|discriminate].
  cbn [obind].
  destruct (index_search ix _ _) as [hits|] eqn:Es; [|discriminate].
  destruct (collect_results score (c :: cs) hits) as [rs|e] eqn:Ec;
    [|discriminate].
  intros H. destruct (map_m_attach_inv st rs results st' H) as [-> Hall].
  split; [reflexivity|]. right. exists ix, qe, hits, rs.
  repeat split; try assumption; reflexivity.
Qed.

Lemma query_results_members question top_k (st st' : state) results :
  query vec score encode normalize_L2 index_search question top_k st
  = (Ok results, st') ->
  Forall (fun r => In (res_text r) (chunks st) /\
                   exists d, In d (documents st) /\
                             res_source r = Some (doc_filename d))
         results.
Proof.
  intros H. destruct (query_inv _ _ _ _ _ H) as [_ [-> | Hq]];
    [constructor|].
  destruct Hq as (ix & qe & hits & rs & _ & _ & _ & _ & Hm).
  destruct (map_m_attach_inv st rs results st Hm) as [_ Hall].
  clear Hm H. induction Hall as [|r r' rs rs' Ha _ IH]; [constructor|].
  constructor; [|exact IH].
  destruct (attach_source_first_match vec score r r' st st Ha)
    as (ci & di & d & Hci & _ & Hd & ->).
  cbn. split.
  - eapply index_of_some_in, Hci.
  - exists d. split; [eapply getitem_some_in, Hd | reflexivity].
Qed.

(** X9. Every result of a [query] that returned carries the text of a
    chunk of the pipeline and, as its source, the filename of a document
    of the pipeline. *)
Theorem query_results_in_corpus question top_k (st st' : state) results :
  query vec score encode normalize_L2 index_search question top_k st
  = (Ok results, st') ->
  Forall (fun r => In (res_text r) (chunks st) /\
                   exists d, In d (documents st) /\
                             res_source r = Some (doc_filename d))
         results.
Proof. apply query_results_members. Qed.

(** X10. A [query] returns one result per hit with a non-negative label,
    in the order of the search and with the score of the hit; when no two
    chunks of the pipeline have the same text, the result for the hit at
    position [i] carries the text of chunk [i] and the filename that
    belongs to chunk [i]. *)
Theorem query_attribution_distinct_chunks
    question top_k (st st' : state) results ix query_embedding hits :
  NoDup (chunks st) ->
  index st = Some ix -> chunks st <> [] ->
  encode [question] = Some query_embedding ->
  index_search ix (map normalize_L2 query_embedding)
    (Z.min top_k (PyList.len (chunks st))) = Some hits ->
  query vec score encode normalize_L2 index_search question top_k st
  = (Ok results, st') ->
  Forall2 (fun h r =>
             PyList.getitem (chunks st) (snd h) = Some (res_text r) /\
             res_score r = fst h /\
             res_source r = owner_filename st (snd h))
          (kept hits) results.
Proof.
  intros Hnd Hix Hne Henc Hs H.
  assert (Hsteps : exists rs,
    collect_results score (chunks st) hits = Ok rs /\
    map_m rs (attach_source vec score) st = (Ok results, st)).
  { revert H. unfold query. unfold bind at 1, gets at 1.
    unfold bind at 1, gets at 1. rewrite Hix.
    destruct (chunks st) as [|c cs] eqn:Ecs; [contradiction|].
    unfold bind at 1, lift at 1. unfold retrieve, create_embeddings.
    rewrite Henc. cbn [obind]. rewrite Hs.
    destruct (collect_results score (c :: cs) hits) as [rs|e];
      [|discriminate].
    intros H. destruct (map_m_attach_inv st rs results st' H) as [-> _].
    now exists rs. }
  destruct Hsteps as (rs & Hc & Hm).
  apply collect_results_inv in Hc.
  destruct (map_m_attach_inv st rs results st Hm) as [_ Hall]. clear Hm H.
  revert results Hall.
  induction Hc as [|h r hs rs (Hh & Ht & Hsc & _) _ IH];
    intros results Hall;
    inversion Hall as [|? r' ? rs' Ha Hrest]; subst; constructor.
  - destruct (attach_source_first_match vec score r r' st st Ha)
      as (ci & di & d & Hci & Hdi & Hd & ->).
    cbn. repeat split; [exact Ht | exact Hsc |].
    rewrite (index_of_nodup _ _ _ Hnd Hh Ht) in Hci. injection Hci as <-.
    unfold owner_filename. now rewrite Hdi, Hd.
  - now apply IH.
Qed.

(** X11. [retrieve], when it returns, gives one result per hit with a
    non-negative label, in the order of the search: the text is the chunk
    at the label, the score is the score of the hit, and there is no
    source yet. Hits with a negative label are dropped. *)
Theorem retrieve_results question (ix : list vec) cs top_k rs :
  retrieve vec score encode normalize_L2 index_search question ix cs top_k
  = Ok rs ->
  exists query_embedding hits,
    encode [question] = Some query_embedding /\
    index_search ix (map normalize_L2 query_embedding)
      (Z.min top_k (PyList.len cs)) = Some hits /\
    Forall2 (fun h r => 0 <= snd h /\
                        PyList.getitem cs (snd h) = Some (res_text r) /\
                        res_score r = fst h /\ res_source r = None)
            (kept hits) rs.
Proof.
  unfold retrieve, create_embeddings.
  destruct (encode [question]) as [qe|]; [|discriminate]. cbn [obind].
  destruct (index_search ix _ _) as [hits|] eqn:Es; [|discriminate].
  intros H. exists qe, hits. repeat split; try assumption.
  now apply collect_results_inv.
Qed.

(** X12. When the search returns as many hits as it is asked for, a
    [query] returns at most [top_k] results and at most as many results
    as the pipeline has chunks. *)
Theorem query_at_most_top_k question top_k (st st' : state) results :
  (forall ix queries k hits,
     index_search ix queries k = Some hits ->
     List.length hits = Z.to_nat k) ->
  query vec score encode normalize_L2 index_search question top_k st
  = (Ok results, st') ->
  PyList.len results <= Z.max 0 top_k /\
  (List.length results <= List.length (chunks st))%nat.
Proof.
  intros Hshape H. unfold PyList.len.
  destruct (query_inv _ _ _ _ _ H) as [_ [-> | Hq]]; [cbn; lia|].
  destruct Hq as (ix & qe & hits & rs & _ & _ & Hs & Hc & Hm).
  apply Hshape in Hs. apply collect_results_inv in Hc.
  apply Forall2_length in Hc.
  destruct (map_m_attach_inv st rs results st Hm) as [_ Hall].
  apply Forall2_length in Hall.
  pose proof (filter_length_le (fun h : score * Z => 0 <=? snd h) hits).
  unfold PyList.len in Hs. lia.
Qed.

(** X13. After [remove_document], whether it returned or raised, no
    [query] that returns cites a document with the removed id: every
    source is the filename of a remaining document, whose id is
    another. *)
Theorem removed_document_not_cited id question top_k (st st' : state)
    results :
  let st1 := snd (remove_document vec encode normalize_L2 id st) in
  query vec score encode normalize_L2 index_search question top_k st1
  = (Ok results, st') ->
  Forall (fun r => exists d, In d (documents st1) /\ doc_id d <> id /\
                             res_source r = Some (doc_filename d))
         results.
Proof.
  cbv zeta. intros H. apply query_results_members in H.
  eapply Forall_impl; [|exact H]. cbn beta.
  intros r (_ & d & Hd & Hsrc). exists d. repeat split; try assumption.
  pose proof (remove_document_snd vec encode normalize_L2 id st) as Hdocs.
  cbv zeta in Hdocs. rewrite Hdocs in Hd.
  pose proof (keep_others_forall id (documents st)) as Hall.
  rewrite Forall_forall in Hall. now apply Hall.
Qed.

End QueryMore.

(** ** The further properties on the concrete sessions *)

Lemma demo_search_shape ix queries k hits :
  Demo.index_search ix queries k = Some hits ->
  List.length hits = Z.to_nat k.
Proof.
  unfold Demo.index_search. destruct queries as [|q qs]; [discriminate|].
  destruct (k <=? 0); [discriminate|]. intros [= <-].
  rewrite length_firstn, length_app, repeat_length. lia.
Qed.

Lemma two_docs_no_such_id :
  forall d, In d (documents Demo.two_docs) -> doc_id d <> "c".
Proof. intros d [<- | [<- | []]]; discriminate. Qed.

Lemma remove_document_unknown_id_witness :
  Demo.remove_document "c" Demo.two_docs = (Ok false, Demo.two_docs).
Proof.
  apply (remove_document_unknown_id Z Demo.encode Demo.normalize_L2
           "c" Demo.two_docs).
  exact two_docs_no_such_id.
Defined.

Lemma remove_document_result_witness :
  exists d, In d (documents Demo.two_docs) /\ doc_id d = "a".
Proof.
  apply (proj2 (proj2 (remove_document_result Z Demo.encode
                         Demo.normalize_L2 "a" Demo.two_docs)) true).
  - reflexivity.
  - reflexivity.
Defined.

Lemma add_document_appends_chunks_witness :
  let st' := snd (Demo.add_document "c" "c.txt" "txt" "Bye" Demo.two_docs) in
  chunks st' = chunks Demo.two_docs ++ chunk_text_default "Bye" /\
  chunk_sources st'
  = chunk_sources Demo.two_docs
    ++ repeat (PyList.len (documents Demo.two_docs))
              (List.length (chunk_text_default "Bye")).
Proof.
  apply (add_document_appends_chunks Z Demo.encode Demo.normalize_L2
           "c" "c.txt" "txt" "Bye" Demo.two_docs).
  exact two_docs_inv.
Defined.

Lemma add_then_remove_restores_witness :
  let st' := snd (Demo.remove_document "c"
               (snd (Demo.add_document "c" "c.txt" "txt" "Bye"
                       Demo.two_docs))) in
  documents st' = documents Demo.two_docs /\
  chunks st' = chunks Demo.two_docs /\
  chunk_sources st' = chunk_sources Demo.two_docs.
Proof.
  apply (add_then_remove_restores Z Demo.encode Demo.normalize_L2
           "c" "c.txt" "txt" "Bye" Demo.two_docs).
  - exact two_docs_inv.
  - exact two_docs_no_such_id.
Defined.

Lemma query_results_in_corpus_witness :
  Forall (fun r => In (res_text r) (chunks Demo.two_docs) /\
                   exists d, In d (documents Demo.two_docs) /\
                             res_source r = Some (doc_filename d))
    [Result "Hello world" 22 (Some "b.txt"); Result "Hello" 10 (Some "a.txt")].
Proof.
  apply (query_results_in_corpus Z Z Demo.encode Demo.normalize_L2
           Demo.index_search "Hi" 5 Demo.two_docs Demo.two_docs).
  reflexivity.
Defined.

Lemma query_attribution_distinct_chunks_witness :
  Forall2 (fun h r =>
             PyList.getitem (chunks Demo.two_docs) (snd h)
             = Some (res_text r) /\
             res_score r = fst h /\
             res_source r = owner_filename Demo.two_docs (snd h))
    (filter (fun h : Z * Z => 0 <=? snd h) [(22, 1); (10, 0)])
    [Result "Hello world" 22 (Some "b.txt"); Result "Hello" 10 (Some "a.txt")].
Proof.
  apply (query_attribution_distinct_chunks Z Z Demo.encode
           Demo.normalize_L2 Demo.index_search "Hi" 5 Demo.two_docs
           Demo.two_docs _ [5; 11] [2] [(22, 1); (10, 0)]).
  - repeat constructor; cbn; intuition discriminate.
  - reflexivity.
  - discriminate.
  - reflexivity.
  - reflexivity.
  - reflexivity.
Defined.

Lemma retrieve_results_witness :
  exists query_embedding hits,
    Demo.encode ["Hi"] = Some query_embedding /\
    Demo.index_search [5; 11] (map Demo.normalize_L2 query_embedding)
      (Z.min 1 (PyList.len ["Hello"; "Hello world"])) = Some hits /\
    Forall2 (fun h r => 0 <= snd h /\
               PyList.getitem ["Hello"; "Hello world"] (snd h)
               = Some (res_text r) /\
               res_score r = fst h /\ res_source r = None)
            (filter (fun h : Z * Z => 0 <=? snd h) hits)
            [Result "Hello world" 22 None].
Proof.
  apply (retrieve_results Z Z Demo.encode Demo.normalize_L2
           Demo.index_search "Hi" [5; 11] ["Hello"; "Hello world"] 1).
  reflexivity.
Defined.

Lemma query_at_most_top_k_witness :
  PyList.len [Result "Hello world" 22 (Some "b.txt")] <= Z.max 0 1 /\
  (List.length [Result "Hello world" 22 (Some "b.txt")]
   <= List.length (chunks Demo.two_docs))%nat.
Proof.
  apply (query_at_most_top_k Z Z Demo.encode Demo.normalize_L2
           Demo.index_search "Hi" 1 Demo.two_docs Demo.two_docs).
  - exact demo_search_shape.
  - reflexivity.
Defined.

Lemma removed_document_not_cited_witness :
  let st1 := snd (Demo.remove_document "a" Demo.two_docs) in
  Forall (fun r => exists d, In d (documents st1) /\ doc_id d <> "a" /\
                             res_source r = Some (doc_filename d))
    [Result "Hello world" 22 (Some "b.txt")].
Proof.
  apply (removed_document_not_cited Z Z Demo.encode Demo.normalize_L2
           Demo.index_search "a" "Hi" 5 Demo.two_docs
           (snd (Demo.remove_document "a" Demo.two_docs))).
  reflexivity.
Defined.

(** * Properties of the loaders *)

Module LoadersFacts.
Import Loaders.






Lemma lower_char_idem c :
  PyStr2.lower_char (PyStr2.lower_char c) = PyStr2.lower_char c.
Proof. destruct c as [[] [] [] [] [] [] [] []]; reflexivity. Qed.

Lemma lower_idem s : PyStr2.lower (PyStr2.lower s) = PyStr2.lower s.
Proof.
  induction s as [|c s IH]; cbn; [reflexivity|].
  now rewrite lower_char_idem, IH.
Qed.

Section ReadersFacts.

Variable E : Type.
Variable pdf_pages : string -> E + list string.
Variable docx_paragraphs : string -> E + list string.
Variable read_text : string -> E + string.
Variable read_json : string -> E + json.
Variable path_name : string -> string.

Local Abbreviation table :=
  (loaders E pdf_pages docx_paragraphs read_text read_json).

(** The keys of the loader table. *)
Lemma loaders_get key :
  In key ["pdf"; "docx"; "txt"; "md"; "json"] <->
  PyDict.get key table <> None.
Proof.
  unfold loaders. cbn [PyDict.get].
  repeat match goal with
  | |- context [String.eqb ?a key] => destruct (String.eqb_spec a key)
  end; subst; cbn; split; intros H; try discriminate; try tauto;
    try (exfalso; now apply H); intuition congruence.
Qed.

(** X15. [load_document] raises its ValueError, with the type as given
    in the message, exactly for the types that are not pdf, docx, txt, md
    or json once lowered, and then reads nothing; for the other types the
    case of the letters does not matter, but for the metadata, which
    keeps the type as given. *)
Theorem load_document_dispatch file_path file_type :
  let load :=
    load_document E pdf_pages docx_paragraphs read_text read_json path_name
  in
  (~ In (PyStr2.lower file_type) ["pdf"; "docx"; "txt"; "md"; "json"] ->
   load file_path file_type
   = inl (UnsupportedFileType ("Unsupported file type: " ++ file_type)))
  /\
  (In (PyStr2.lower file_type) ["pdf"; "docx"; "txt"; "md"; "json"] ->
   (forall message,
      load file_path file_type <> inl (UnsupportedFileType message)) /\
   load file_path file_type
   = match load file_path (PyStr2.lower file_type) with
     | inl e => inl e
     | inr (text, (name, _)) => inr (text, (name, file_type))
     end).
Proof.
  cbv zeta. unfold load_document. rewrite lower_idem.
  pose proof (loaders_get (PyStr2.lower file_type)) as Hk.
  destruct (PyDict.get (PyStr2.lower file_type) table) as [loader|].
  - split.
    + intros Hn. exfalso. apply Hn. apply Hk. discriminate.
    + intros _. destruct (loader file_path); split;
        try discriminate; reflexivity.
  - split; [reflexivity|].
    intros Hin. apply Hk in Hin. contradiction.
Qed.

(** X16. The extensions that an upload accepts are the keys of the loader
    table with a dot in front: a type is in the table exactly when the
    dotted type is a supported extension. *)
Theorem supported_extensions_have_loaders file_type :
  PyDict.mem file_type table = true <->
  In ("." ++ file_type)%string SUPPORTED_EXTENSIONS.
Proof.
  unfold PyDict.mem.
  pose proof (loaders_get file_type) as Hk.
  assert (Hin : In file_type ["pdf"; "docx"; "txt"; "md"; "json"] <->
                In ("." ++ file_type)%string SUPPORTED_EXTENSIONS).
  { unfold SUPPORTED_EXTENSIONS. cbn [In]. split.
    - intros [<- | [<- | [<- | [<- | [<- | []]]]]]; cbn; tauto.
    - intros [H | [H | [H | [H | [H | []]]]]]; injection H as <-; tauto. }
  rewrite <- Hin, Hk.
  destruct (PyDict.get file_type table); split; intros H;
    try reflexivity; try discriminate; try (exfalso; now apply H).
Qed.

(** X17. The text of a text, markdown or PDF document is trimmed by its
    loader, so every chunk cut from it is trimmed, also when the text is
    no longer than the chunk size. *)
Theorem loaded_text_chunks_trimmed
    file_path text fuel chunk_size overlap chunks :
  load_txt E read_text file_path = inr text \/
  load_pdf E pdf_pages file_path = inr text ->
  chunk_text fuel text chunk_size overlap = Some chunks ->
  Forall (fun c => PyStr.strip c = c) chunks.
Proof.
  intros Hload.
  assert (Ht : PyStr.strip text = text).
  { unfold load_txt, load_pdf in Hload.
    destruct Hload as [H | H];
      [destruct (read_text file_path) | destruct (pdf_pages file_path)];
      try discriminate; injection H as <-; apply PyStrMore.strip_idem. }
  apply chunk_text_forall.
  - intros _ _. exact Ht.
  - intros _ start c _. apply PyStrMore.strip_idem.
Qed.

End ReadersFacts.

End LoadersFacts.

(** * Properties of the sessions and the prompt *)

Module PyDictFacts.
Section Facts.
Context {V : Type}.
Implicit Types (d : PyDict.dict V) (k : string) (v : V).

Lemma get_set_same k v d : PyDict.get k (PyDict.set k v d) = Some v.
Proof.
  induction d as [|[k' v'] d IH]; cbn.
  - now rewrite String.eqb_refl.
  - destruct (String.eqb_spec k' k) as [->|Hne]; cbn.
    + now rewrite String.eqb_refl.
    + destruct (String.eqb_spec k' k); [contradiction | exact IH].
Qed.

Lemma get_set_other k k' v d :
  k' <> k -> PyDict.get k' (PyDict.set k v d) = PyDict.get k' d.
Proof.
  intros Hne. induction d as [|[k0 v0] d IH]; cbn.
  - destruct (String.eqb_spec k k'); [congruence | reflexivity].
  - destruct (String.eqb_spec k0 k) as [->|Hk]; cbn.
    + destruct (String.eqb_spec k k'); [congruence | reflexivity].
    + destruct (String.eqb_spec k0 k'); [reflexivity | exact IH].
Qed.

Lemma get_none_keys k d : PyDict.get k d = None <-> ~ In k (map fst d).
Proof.
  induction d as [|[k' v'] d IH]; cbn; [tauto|].
  destruct (String.eqb_spec k' k) as [->|Hne].
  - split; [discriminate | intros H; exfalso; apply H; now left].
  - rewrite IH. split; [intros H [Heq | Hin]; tauto | tauto].
Qed.

Lemma keys_set k v d :
  map fst (PyDict.set k v d)
  = if PyDict.mem k d then map fst d else map fst d ++ [k].
Proof.
  unfold PyDict.mem. induction d as [|[k' v'] d IH]; cbn; [reflexivity|].
  destruct (String.eqb_spec k' k) as [->|Hne]; cbn; [reflexivity|].
  rewrite IH. now destruct (PyDict.get k d).
Qed.

Lemma wf_set k v d : PyDict.wf d -> PyDict.wf (PyDict.set k v d).
Proof.
  unfold PyDict.wf. intros Hwf. rewrite keys_set. unfold PyDict.mem.
  destruct (PyDict.get k d) eqn:E; [exact Hwf|].
  apply get_none_keys in E.
  apply NoDup_app; [exact Hwf | repeat constructor; intros [] |].
  intros x Hx [<- | []]. contradiction.
Qed.

Lemma del_absent k d : ~ In k (map fst d) -> PyDict.del k d = d.
Proof.
  induction d as [|[k' v'] d IH]; cbn; [reflexivity|]. intros Hn.
  destruct (String.eqb_spec k' k); [tauto|]. rewrite IH; tauto.
Qed.

Lemma get_del_other k k' d :
  k' <> k -> PyDict.get k' (PyDict.del k d) = PyDict.get k' d.
Proof.
  intros Hne. induction d as [|[k0 v0] d IH]; cbn; [reflexivity|].
  destruct (String.eqb_spec k0 k) as [->|Hk]; cbn.
  - destruct (String.eqb_spec k k'); [congruence | reflexivity].
  - destruct (String.eqb_spec k0 k'); [reflexivity | exact IH].
Qed.

Lemma get_del_same k d :
  PyDict.wf d -> PyDict.get k (PyDict.del k d) = None.
Proof.
  unfold PyDict.wf. induction d as [|[k0 v0] d IH]; cbn; [reflexivity|].
  intros Hwf. inversion Hwf as [|? ? Hnotin Hwf']; subst.
  destruct (String.eqb_spec k0 k) as [->|Hk]; cbn.
  - now apply get_none_keys.
  - destruct (String.eqb_spec k0 k); [contradiction | now apply IH].
Qed.

(** Under one binding per key, a lookup in the filtered bindings is the
    lookup followed by the test. *)
Lemma get_filter (f : string * V -> bool) k d :
  PyDict.wf d ->
  PyDict.get k (filter f d)
  = match PyDict.get k d with
    | Some v => if f (k, v) then Some v else None
    | None => None
    end.
Proof.
  unfold PyDict.wf. induction d as [|[k0 v0] d IH]; cbn; [reflexivity|].
  intros Hwf. inversion Hwf as [|? ? Hnotin Hwf']; subst.
  destruct (String.eqb_spec k0 k) as [->|Hk].
  - destruct (f (k, v0)); cbn.
    + now rewrite String.eqb_refl.
    + rewrite (IH Hwf').
      replace (PyDict.get k d) with (@None V);
        [reflexivity | symmetry; now apply get_none_keys].
  - destruct (f (k0, v0)); cbn; [|now apply IH].
    destruct (String.eqb_spec k0 k); [contradiction | now apply IH].
Qed.

(** Deleting keys that are not the first key leaves the first binding
    in front. *)
Lemma fold_del_head k v d ks :
  ~ In k ks ->
  fold_left (fun d sid => PyDict.del sid d) ks ((k, v) :: d)
  = (k, v) :: fold_left (fun d sid => PyDict.del sid d) ks d.
Proof.
  revert d. induction ks as [|k' ks IH]; intros d Hn; [reflexivity|].
  cbn [fold_left PyDict.del].
  destruct (String.eqb_spec k k') as [->|Hne]; [exfalso; apply Hn; now left|].
  apply IH. intros Hin. apply Hn. now right.
Qed.

End Facts.
End PyDictFacts.

Module ServerFacts.
Import Server.

Section SessionsFacts.

Variable vec : Type.
Implicit Types (d : sessions vec).

(** The deletions of [cleanup_sessions] leave the sessions that pass the
    test, in their order. *)
Lemma cleanup_filter now d :
  PyDict.wf d ->
  cleanup_sessions vec now d
  = filter (fun '(_, s) =>
              negb (last_active s
                    <? now - timedelta_minutes SESSION_TTL_MINUTES)) d.
Proof.
  unfold cleanup_sessions, PyDict.wf. cbv zeta.
  set (cutoff := now - timedelta_minutes SESSION_TTL_MINUTES).
  induction d as [|[k s] d IH]; [reflexivity|].
  intros Hwf. inversion Hwf as [|? ? Hnotin Hwf']; subst.
  cbn [filter]. destruct (last_active s <? cutoff); cbn [negb map fst].
  - cbn [fold_left PyDict.del]. rewrite String.eqb_refl. now apply IH.
  - rewrite PyDictFacts.fold_del_head; [now rewrite IH|].
    intros Hin. apply Hnotin. apply in_map_iff in Hin.
    destruct Hin as ([k' s'] & <- & Hin). apply filter_In in Hin.
    apply in_map_iff. exists (k', s'). split; [reflexivity | tauto].
Qed.

Lemma get_session_spec now0 now sid d :
  get_session vec now0 now sid d
  = match PyDict.get sid d with
    | Some s0 =>
        let s := Session (session_pipeline s0) now (messages s0) in
        (inr s, PyDict.set sid s d)
    | None =>
        let s := Session (init vec) now [] in
        (inr s,
         PyDict.set sid s (PyDict.set sid (Session (init vec) now0 []) d))
    end.
Proof.
  unfold get_session, PyDict.mem.
  destruct (PyDict.get sid d) as [s0|] eqn:E; cbn [negb].
  - now rewrite E.
  - now rewrite PyDictFacts.get_set_same.
Qed.

Lemma set_set (k : string) (v v' : session vec) d :
  PyDict.set k v' (PyDict.set k v d) = PyDict.set k v' d.
Proof.
  induction d as [|[k0 v0] d IH]; cbn.
  - now rewrite String.eqb_refl.
  - destruct (String.eqb_spec k0 k) as [->|Hne]; cbn.
    + now rewrite String.eqb_refl.
    + destruct (String.eqb_spec k0 k); [contradiction | now rewrite IH].
Qed.

Lemma get_session_facts now0 now sid d :
  exists s d',
    get_session vec now0 now sid d = (inr s, d') /\
    PyDict.get sid d' = Some s /\
    last_active s = now /\
    match PyDict.get sid d with
    | Some s0 => session_pipeline s = session_pipeline s0 /\
                 messages s = messages s0
    | None => session_pipeline s = init vec /\ messages s = []
    end /\
    (forall sid', sid' <> sid -> PyDict.get sid' d' = PyDict.get sid' d) /\
    (PyDict.wf d -> PyDict.wf d').
Proof.
  rewrite get_session_spec.
  destruct (PyDict.get sid d) as [s0|] eqn:E; cbv zeta;
    eexists; eexists; (split; [reflexivity|]).
  - rewrite PyDictFacts.get_set_same. repeat split.
    + intros sid' Hne. now apply PyDictFacts.get_set_other.
    + apply PyDictFacts.wf_set.
  - rewrite set_set, PyDictFacts.get_set_same. repeat split.
    + intros sid' Hne. now apply PyDictFacts.get_set_other.
    + apply PyDictFacts.wf_set.
Qed.

(** X18. [get_session] never raises. It returns the session that the
    dict then binds to the id, with [last_active] set to the clock; the
    pipeline and the history are those of the session that was there, or
    a new pipeline and an empty history when there was none; the other
    sessions are untouched and the dict keeps one binding per key. *)
Theorem get_session_result now0 now sid d :
  exists s d',
    get_session vec now0 now sid d = (inr s, d') /\
    PyDict.get sid d' = Some s /\
    last_active s = now /\
    match PyDict.get sid d with
    | Some s0 => session_pipeline s = session_pipeline s0 /\
                 messages s = messages s0
    | None => session_pipeline s = init vec /\ messages s = []
    end /\
    (forall sid', sid' <> sid -> PyDict.get sid' d' = PyDict.get sid' d) /\
    (PyDict.wf d -> PyDict.wf d').
Proof. apply get_session_facts. Qed.

(** X19. [cleanup_sessions] removes exactly the sessions whose
    [last_active] is more than thirty minutes before the clock; the
    others stay as they are, in their order, and [health_check] counts
    them. *)
Theorem cleanup_sessions_expired now d :
  PyDict.wf d ->
  let fresh := fun '((_, s) : string * session vec) =>
                 now - 30 * 60 * 1000000 <=? last_active s in
  cleanup_sessions vec now d = filter fresh d /\
  health_check vec now d = (PyList.len (filter fresh d), filter fresh d).
Proof.
  intros Hwf. cbv zeta. unfold health_check.
  rewrite (cleanup_filter now d Hwf).
  assert (Heq : filter (fun '(_, s) =>
                   negb (last_active s
                         <? now - timedelta_minutes SESSION_TTL_MINUTES)) d
                = filter (fun '((_, s) : string * session vec) =>
                   now - 30 * 60 * 1000000 <=? last_active s) d).
  { apply filter_ext. intros [k s].
    change (timedelta_minutes SESSION_TTL_MINUTES) with (30 * 60 * 1000000).
    destruct (Z.ltb_spec (last_active s) (now - 30 * 60 * 1000000)),
             (Z.leb_spec (now - 30 * 60 * 1000000) (last_active s));
      cbn; try reflexivity; lia. }
  rewrite Heq. split; reflexivity.
Qed.

(** X20. A session fetched at clock [t] is still bound, unchanged, after
    a cleanup at clock [t'] when [t'] is at most thirty minutes later,
    and is gone when [t'] is later than that. *)
Theorem session_lifetime now0 t t' sid d :
  PyDict.wf d ->
  let d1 := snd (get_session vec now0 t sid d) in
  (t' <= t + 30 * 60 * 1000000 ->
   PyDict.get sid (cleanup_sessions vec t' d1) = PyDict.get sid d1 /\
   PyDict.get sid d1 <> None) /\
  (t + 30 * 60 * 1000000 < t' ->
   PyDict.get sid (cleanup_sessions vec t' d1) = None).
Proof.
  intros Hwf. cbv zeta.
  assert (Hs : exists s, PyDict.get sid (snd (get_session vec now0 t sid d))
                         = Some s /\ last_active s = t /\
                         PyDict.wf (snd (get_session vec now0 t sid d))).
  { rewrite get_session_spec.
    destruct (PyDict.get sid d); cbv zeta; cbn [snd];
      rewrite ?set_set, PyDictFacts.get_set_same; eexists;
      (split; [reflexivity|]); (split; [reflexivity|]);
      now apply PyDictFacts.wf_set. }
  destruct Hs as (s & Hget & Hla & Hwf1).
  rewrite (cleanup_filter t' _ Hwf1), (PyDictFacts.get_filter _ _ _ Hwf1).
  rewrite Hget, Hla.
  change (timedelta_minutes SESSION_TTL_MINUTES) with (30 * 60 * 1000000).
  split; intros Ht.
  - destruct (Z.ltb_spec t (t' - 30 * 60 * 1000000)); [lia|].
    split; [reflexivity | discriminate].
  - destruct (Z.ltb_spec t (t' - 30 * 60 * 1000000)); [reflexivity | lia].
Qed.

(** X21. [end_session] answers "session ended" exactly when the id was
    bound; afterwards the id is unbound and the other sessions are
    untouched, so the next [get_session] for the id starts from a new
    pipeline and an empty history. *)
Theorem end_session_forgets now0 now sid d :
  PyDict.wf d ->
  let r := end_session vec sid d in
  (fst r = "session ended" <-> PyDict.get sid d <> None) /\
  PyDict.get sid (snd r) = None /\
  (forall sid', sid' <> sid ->
     PyDict.get sid' (snd r) = PyDict.get sid' d) /\
  exists s d',
    get_session vec now0 now sid (snd r) = (inr s, d') /\
    session_pipeline s = init vec /\ messages s = [].
Proof.
  intros Hwf. cbv zeta. unfold end_session, PyDict.mem.
  destruct (PyDict.get sid d) as [s0|] eqn:E; cbn [fst snd].
  - assert (Hnone : PyDict.get sid (PyDict.del sid d) = None)
      by now apply PyDictFacts.get_del_same.
    repeat split; try discriminate; try assumption.
    + intros sid' Hne. now apply PyDictFacts.get_del_other.
    + rewrite get_session_spec, Hnone. cbv zeta.
      eexists; eexists; repeat split.
  - repeat split; try assumption.
    + discriminate.
    + intros H. now contradiction H.
    + rewrite get_session_spec, E. cbv zeta.
      eexists; eexists; repeat split.
Qed.

End SessionsFacts.

End ServerFacts.

Module PromptFacts.
Import Server.

Lemma last_n_length {A} n (l : list A) :
  List.length (last_n n l) = Nat.min n (List.length l).
Proof. unfold last_n. rewrite length_skipn. lia. Qed.

Lemma last_n_idem {A} n (l : list A) : last_n n (last_n n l) = last_n n l.
Proof.
  unfold last_n at 1. rewrite last_n_length.
  replace (Nat.min n (List.length l) - n)%nat with 0%nat by lia.
  reflexivity.
Qed.

(** X22. The prompt uses at most the last six messages of the history:
    the messages before them change nothing. *)
Theorem build_prompt_last_six {score} question
    (context : list (result score)) history :
  build_prompt question context history
  = build_prompt question context (last_n 6 history).
Proof.
  unfold build_prompt.
  destruct (match context with
            | [] => Some "No documents uploaded yet."
            | _ :: _ => option_map (PyStr2.join (LF ++ LF))
                                   (context_lines context)
            end) as [context_text|]; [|reflexivity].
  destruct history as [|m history]; [reflexivity|].
  rewrite last_n_idem.
  pose proof (last_n_length 6 (m :: history)) as Hlen.
  destruct (last_n 6 (m :: history)) as [|m' rest] eqn:E;
    [cbn in Hlen; lia | reflexivity].
Qed.

Section AfterQuery.

Variables vec score : Type.
Variable encode : list string -> option (list vec).
Variable normalize_L2 : vec -> vec.
Variable index_search : list vec -> list vec -> Z -> option (list (score * Z)).

Lemma context_lines_some (context : list (result score)) :
  Forall (fun r => res_source r <> None) context ->
  exists lines, context_lines context = Some lines.
Proof.
  induction 1 as [|r rs Hr _ [lines IH]]; cbn [context_lines]; [eauto|].
  destruct (res_source r); [|contradiction]. rewrite IH. eauto.
Qed.

(** X23. [build_prompt] never hits a result without a source when its
    context is what a [query] returned: it returns the fixed system
    prompt and a user prompt. *)
Theorem build_prompt_after_query question top_k (st st' : pipeline vec)
    results history :
  query vec score encode normalize_L2 index_search question top_k st
  = (Ok results, st') ->
  exists user_prompt,
    build_prompt question results history
    = Some (system_prompt, user_prompt).
Proof.
  intros H. apply query_results_members in H.
  assert (Hsrc : Forall (fun r => res_source r <> None) results).
  { eapply Forall_impl; [|exact H]. cbn beta.
    intros r (_ & d & _ & ->). discriminate. }
  destruct (context_lines_some results Hsrc) as [lines Hl].
  unfold build_prompt. destruct results as [|r rs]; [eauto|].
  rewrite Hl. cbn [option_map]. eauto.
Qed.

Variable generate_answer :
  string -> list (result score) -> list message -> chat_request -> string.

(** X24. [chat] never changes the pipeline of the session nor any other
    session. When it returns, the sources are what [query] returned for
    the message with [top_k = 3], and the history has grown by the user
    message followed by the answer; when the query raises, the history
    is as it was. *)
Theorem chat_effect now0 now request sid (d : sessions vec) :
  let ask := query vec score encode normalize_L2 index_search
               (req_message request) 3 in
  let r := chat vec score encode normalize_L2 index_search generate_answer
             now0 now request sid d in
  exists s d1,
    get_session vec now0 now sid d = (inr s, d1) /\
    (forall sid', sid' <> sid ->
       PyDict.get sid' (snd r) = PyDict.get sid' d) /\
    match fst r with
    | inr (answer, context) =>
        ask (session_pipeline s) = (Ok context, session_pipeline s) /\
        answer = generate_answer (req_message request) context
                   (messages s) request /\
        PyDict.get sid (snd r)
        = Some (Session (session_pipeline s) (last_active s)
                  (messages s
                   ++ [Message "user" (req_message request);
                       Message "assistant" answer]))
    | inl e =>
        exists e', e = PipelineError e' /\
          ask (session_pipeline s) = (Raise e', session_pipeline s) /\
          PyDict.get sid (snd r) = Some s
    end.
Proof.
  cbv zeta. unfold chat.
  destruct (ServerFacts.get_session_facts vec now0 now sid d)
    as (s & d1 & Hget & _ & _ & _ & Hother & _).
  rewrite Hget. exists s, d1. split; [reflexivity|].
  pose proof (query_frame vec score encode normalize_L2 index_search
                (req_message request) 3 (session_pipeline s)) as Hf.
  destruct (query vec score encode normalize_L2 index_search
              (req_message request) 3 (session_pipeline s))
    as [[context|e] p]; cbn [snd] in Hf; subst p; cbn [fst snd].
  - split.
    + intros sid' Hne. rewrite PyDictFacts.get_set_other by exact Hne.
      now apply Hother.
    + rewrite PyDictFacts.get_set_same. repeat split.
  - split.
    + intros sid' Hne. rewrite PyDictFacts.get_set_other by exact Hne.
      now apply Hother.
    + exists e. rewrite PyDictFacts.get_set_same. repeat split.
      now destruct s.
Qed.

End AfterQuery.

End PromptFacts.

(** ** The properties of the loaders and the sessions on concrete data *)

Module ServerDemo.
Import Loaders Server.

Lemma load_document_dispatch_witness :
  let load :=
    load_document unit (fun _ => inl tt) (fun _ => inl tt)
      (fun _ => inr "  Hello  ") (fun _ => inl tt) (fun p => p) in
  load "notes.TXT" "exe"
  = inl (UnsupportedFileType "Unsupported file type: exe") /\
  load "notes.TXT" "TXT"
  = match load "notes.TXT" (PyStr2.lower "TXT") with
    | inl e => inl e
    | inr (text, (name, _)) => inr (text, (name, "TXT"))
    end.
Proof.
  split.
  - apply (proj1 (LoadersFacts.load_document_dispatch unit
             (fun _ => inl tt) (fun _ => inl tt)
             (fun _ => inr "  Hello  ") (fun _ => inl tt) (fun p => p)
             "notes.TXT" "exe")).
    cbn. intuition discriminate.
  - apply (proj2 (LoadersFacts.load_document_dispatch unit
             (fun _ => inl tt) (fun _ => inl tt)
             (fun _ => inr "  Hello  ") (fun _ => inl tt) (fun p => p)
             "notes.TXT" "TXT")).
    cbn. tauto.
Defined.

Lemma loaded_text_chunks_trimmed_witness :
  Forall (fun c => PyStr.strip c = c) ["Hello"].
Proof.
  apply (LoadersFacts.loaded_text_chunks_trimmed unit
           (fun _ => inl tt) (fun _ => inr "  Hello  ")
           "notes.txt" "Hello" 6 500 50).
  - left. reflexivity.
  - reflexivity.
Defined.

(** Two sessions, last active at clocks 0 and 1 800 000 001. *)
Lemma two_sessions_wf :
  PyDict.wf [("s1", Session (init Z) 0 []);
             ("s2", Session (init Z) 1800000001 [])].
Proof. repeat constructor; cbn; intuition discriminate. Qed.

Lemma cleanup_sessions_expired_witness :
  cleanup_sessions Z 1800000001
    [("s1", Session (init Z) 0 []); ("s2", Session (init Z) 1800000001 [])]
  = [("s2", Session (init Z) 1800000001 [])].
Proof.
  apply (proj1 (ServerFacts.cleanup_sessions_expired Z 1800000001 _
                  two_sessions_wf)).
Defined.

Lemma session_lifetime_witness :
  let d1 := snd (get_session Z 5 7 "s3"
                   [("s1", Session (init Z) 0 []);
                    ("s2", Session (init Z) 1800000001 [])]) in
  (PyDict.get "s3" (cleanup_sessions Z 1800000007 d1) = PyDict.get "s3" d1 /\
   PyDict.get "s3" d1 <> None) /\
  PyDict.get "s3" (cleanup_sessions Z 1800000008 d1) = None.
Proof.
  split.
  - apply (proj1 (ServerFacts.session_lifetime Z 5 7 1800000007 "s3" _
                    two_sessions_wf)). lia.
  - apply (proj2 (ServerFacts.session_lifetime Z 5 7 1800000008 "s3" _
                    two_sessions_wf)). lia.
Defined.

Lemma end_session_forgets_witness :
  let d := [("s1", Session (init Z) 0 []);
            ("s2", Session Demo.two_docs 1800000001 [])] in
  PyDict.get "s2" (snd (end_session Z "s2" d)) = None /\
  exists s d',
    get_session Z 5 7 "s2" (snd (end_session Z "s2" d)) = (inr s, d') /\
    session_pipeline s = init Z /\ messages s = [].
Proof.
  assert (Hwf : PyDict.wf [("s1", Session (init Z) 0 []);
                            ("s2", Session Demo.two_docs 1800000001 [])])
    by (repeat constructor; cbn; intuition discriminate).
  destruct (ServerFacts.end_session_forgets Z 5 7 "s2" _ Hwf)
    as (_ & Hnone & _ & Hfresh).
  split; [exact Hnone | exact Hfresh].
Defined.

Lemma build_prompt_after_query_witness :
  exists user_prompt,
    build_prompt "Hi"
      [Result "Hello world" 22 (Some "b.txt");
       Result "Hello" 10 (Some "a.txt")]
      [Message "user" "Hello?"]
    = Some (system_prompt, user_prompt).
Proof.
  apply (PromptFacts.build_prompt_after_query Z Z Demo.encode
           Demo.normalize_L2 Demo.index_search "Hi" 5 Demo.two_docs
           Demo.two_docs).
  reflexivity.
Defined.

End ServerDemo.
